(** * Calendarize: the Gemini response parser

    A shallow embedding of [GeminiParser.parse]
    (src/backend/event_generation/nlp_parsers/gemini_parser.py) and the
    properties of its extraction pipeline: sanitising the model's text,
    decoding it, and building one [Event] per candidate record.

    Python values are dynamically typed, so they are embedded as one
    inductive type [value]; a raised exception is the left injection of a
    sum, threaded through the code with a small error monad.  Strings are
    sequences of code points below 256.  Calls to [print] are left out. *)

From Stdlib Require Import String Ascii List ZArith Bool Lia.
From Stdlib Require Import Floats.SpecFloat.
From Stdlib Require Import Init.Byte.
Import ListNotations.

Set Warnings "-register-all".

Local Open Scope string_scope.
Local Open Scope Z_scope.

Module GeminiParser.

(** ** Python values *)

(** A naive [datetime.datetime]. *)
Record datetime : Type := mk_datetime {
  dt_year : Z; dt_month : Z; dt_day : Z;
  dt_hour : Z; dt_minute : Z; dt_second : Z
}.

(** The values the parser handles: what [json.loads] returns ([None],
    [bool], [int], [float], [str], [list], [dict]) and the [datetime]
    objects that [parse_datetime] produces.  A [dict] keeps its items in
    insertion order. *)
Inductive value : Type :=
| VNone
| VBool (b : bool)
| VInt (n : Z)
| VFloat (f : spec_float)
| VStr (s : string)
| VList (l : list value)
| VDict (d : list (string * value))
| VDatetime (t : datetime).

(** [bool(v)], the truth value used by [not v] and [if v]. *)
Definition truthy (v : value) : bool :=
  match v with
  | VNone => false
  | VBool b => b
  | VInt n => negb (n =? 0)
  | VFloat f => match f with S754_zero _ => false | _ => true end
  | VStr s => match s with EmptyString => false | String _ _ => true end
  | VList l => match l with [] => false | _ :: _ => true end
  | VDict d => match d with [] => false | _ :: _ => true end
  | VDatetime _ => true
  end.

(** [type(v).__name__] *)
Definition type_name (v : value) : string :=
  match v with
  | VNone => "NoneType"
  | VBool _ => "bool"
  | VInt _ => "int"
  | VFloat _ => "float"
  | VStr _ => "str"
  | VList _ => "list"
  | VDict _ => "dict"
  | VDatetime _ => "datetime.datetime"
  end.

(** Item lookup in a [dict]. *)
Fixpoint lookup (k : string) (d : list (string * value)) : option value :=
  match d with
  | [] => None
  | (k', v) :: d' => if String.eqb k k' then Some v else lookup k d'
  end.

(** [d.get(k, default)] *)
Definition dict_get_default (d : list (string * value)) (k : string)
  (default : value) : value :=
  match lookup k d with
  | Some v => v
  | None => default
  end.

(** [d.get(k)], whose default is [None]. *)
Definition dict_get (d : list (string * value)) (k : string) : value :=
  dict_get_default d k VNone.

(** ** Exceptions *)

(** The exception classes that the handlers of [parse] tell apart, and
    those the interpreter raises on the way. *)
Inductive exn_class : Type :=
| ConnectionError
| ValueError
| JSONDecodeError
| ValidationError
| KeyError
| TypeError
| AttributeError
| UnboundLocalError
| FileNotFoundError
| OtherException.

(** An exception object: its class and [str(e)]. *)
Record exn : Type := mk_exn { exn_cls : exn_class; exn_text : string }.

(** [isinstance(e, ConnectionError)] *)
Definition is_ConnectionError (e : exn) : bool :=
  match exn_cls e with
  | ConnectionError => true
  | _ => false
  end.

(** [isinstance(e, ValueError)]: [json.JSONDecodeError] and pydantic's
    [ValidationError] both derive from [ValueError]. *)
Definition is_ValueError (e : exn) : bool :=
  match exn_cls e with
  | ValueError | JSONDecodeError | ValidationError => true
  | _ => false
  end.

(** [isinstance(e, ValidationError)] *)
Definition is_ValidationError (e : exn) : bool :=
  match exn_cls e with
  | ValidationError => true
  | _ => false
  end.

(** [isinstance(e, json.JSONDecodeError)] *)
Definition is_JSONDecodeError (e : exn) : bool :=
  match exn_cls e with
  | JSONDecodeError => true
  | _ => false
  end.

(** A computation that returns a value or raises. *)
Definition py (A : Type) : Type := (exn + A)%type.

Definition ret {A : Type} (a : A) : py A := inr a.

Definition raise {A : Type} (c : exn_class) (text : string) : py A :=
  inl (mk_exn c text).

Definition bind {A B : Type} (m : py A) (k : A -> py B) : py B :=
  match m with
  | inl e => inl e
  | inr a => k a
  end.

Notation "x <- m ;; k" := (bind m (fun x => k))
  (at level 61, m at next level, right associativity).

(** ** Strings *)

(** [str.isspace] on one character. *)
Definition isspace (c : ascii) : bool :=
  let n := Z.of_nat (nat_of_ascii c) in
  ((9 <=? n) && (n <=? 13)) || ((28 <=? n) && (n <=? 32))
  || (n =? 133) || (n =? 160).

Fixpoint lstrip (s : string) : string :=
  match s with
  | EmptyString => EmptyString
  | String c s' => if isspace c then lstrip s' else s
  end.

Fixpoint rstrip (s : string) : string :=
  match s with
  | EmptyString => EmptyString
  | String c s' =>
      match rstrip s' with
      | EmptyString => if isspace c then EmptyString else String c EmptyString
      | r => String c r
      end
  end.

(** [s.strip()] *)
Definition strip (s : string) : string := rstrip (lstrip s).

(** [s.startswith(p)] *)
Definition startswith (s p : string) : bool := String.prefix p s.

(** [s[n:]] for [0 <= n] *)
Definition drop_prefix (n : nat) (s : string) : string :=
  substring n (String.length s - n) s.

(** [s[:-n]] for [0 < n] *)
Definition drop_suffix (n : nat) (s : string) : string :=
  substring 0 (String.length s - n) s.

(** [s.endswith(p)] *)
Definition endswith (s p : string) : bool :=
  (String.length p <=? String.length s)%nat
  && String.eqb (drop_prefix (String.length s - String.length p) s) p.

(** Only whitespace, as [str.isspace] tells it for each character. *)
Fixpoint all_space (s : string) : bool :=
  match s with
  | EmptyString => true
  | String c s' => isspace c && all_space s'
  end.

(** The first character, when there is one, is whitespace. *)
Definition leading_space (s : string) : bool :=
  match s with
  | EmptyString => false
  | String c _ => isspace c
  end.

(** ** The Event entity *)

(** Modelled from the spec: the [Event] class is declared in
    event_generation/event/event.py, which is not part of the sources at
    hand.  The spec (section 3, Data model) describes it as an immutable
    entity assembled once from the normalised fields, so it is a record with
    one field per keyword argument of the call [Event(...)] in [parse]. *)
Record Event : Type := mk_Event {
  title : value;
  is_all_day : value;
  start_time : value;
  time_zone : value;
  end_time : value;
  description : value;
  location : value;
  attendees : value;
  is_recurring : value;
  recurrence_pattern : value;
  recurrence_days : value;
  recurrence_count : value;
  recurrence_end_date : value
}.

(** ** Results and the log *)

(** What [parse] returns: a message for the user, or the list of events. *)
Inductive outcome : Type :=
| Message (s : string)
| EventList (l : list Event).

(** An argument of a [logging.error] call: the exception itself, or the
    text of [traceback.format_exc()] for the exception being handled. *)
Inductive log_arg : Type :=
| ArgExn (e : exn)
| ArgTrace (e : exn).

(** A [logging.error(fmt, *args, exc_info=...)] call. *)
Record log_record : Type := mk_log {
  log_format : string;
  log_args : list log_arg;
  log_exc_info : bool
}.

(** The model's answer.  [parse] only evaluates
    [response.candidates[0].content.parts[0].text], which raises or gives
    the text ([None] when the part has none). *)
Record response : Type := mk_response {
  first_part_text : py (option string)
}.

(** The events that [parse] returned, none when it returned a message. *)
Definition events_of (result : list log_record * outcome) : list Event :=
  match snd result with
  | EventList l => l
  | Message _ => []
  end.

(** ** Sanitising the raw text (lines 205-213) *)

Definition fence_open : string := "```json".
Definition fence_close : string := "```".

Definition sanitize (raw_text : string) : string :=
  let raw_text :=
    if startswith raw_text fence_open
    then strip (drop_prefix (String.length fence_open) raw_text)
    else raw_text in
  let raw_text :=
    if endswith raw_text fence_close
    then strip (drop_suffix 3 raw_text)
    else raw_text in
  raw_text.

(** ** Subscripting and iterating the decoded document (line 229) *)

(** [event_data["events"]] *)
Definition getitem_events (event_data : value) : py value :=
  match event_data with
  | VDict d =>
      match lookup "events" d with
      | Some v => ret v
      | None => raise KeyError "'events'"
      end
  | VList _ => raise TypeError "list indices must be integers or slices, not str"
  | VStr _ => raise TypeError "string indices must be integers, not 'str'"
  | v => raise TypeError ("'" ++ type_name v ++ "' object is not subscriptable")
  end.

(** The items that [for event in v] goes through: the elements of a list,
    the keys of a dict, the characters of a string. *)
Definition iterate (v : value) : py (list value) :=
  match v with
  | VList l => ret l
  | VDict d => ret (map (fun kv => VStr (fst kv)) d)
  | VStr s =>
      ret (map (fun c => VStr (String c EmptyString)) (list_ascii_of_string s))
  | v => raise TypeError ("'" ++ type_name v ++ "' object is not iterable")
  end.

(** Whether the decoded document is a mapping with the key ["events"]. *)
Definition has_events_key (event_data : value) : bool :=
  match event_data with
  | VDict d => match lookup "events" d with Some _ => true | None => false end
  | _ => false
  end.

(** The field [k] of a candidate record is absent, null or empty: what
    [not event.get(k)] tests. *)
Definition lacks (d : list (string * value)) (k : string) : Prop :=
  truthy (dict_get d k) = false.

Definition missing_required : string :=
  "Missing required fields: 'title' and/or 'start_time'".

Definition no_event_data : string := "No event data extracted from the text".

(** The exception of line 233. *)
Definition missing_required_error : exn := mk_exn ValueError missing_required.

(** The exception of reading [event_data] while it is unbound. *)
Definition unbound_event_data : exn :=
  mk_exn UnboundLocalError
    "cannot access local variable 'event_data' where it is not associated with a value".

Section Parse.

(** *** Collaborators outside this module *)

(** Lines 34-35: [datetime.strptime(local_time, "%Y-%m-%dT%H:%M:%SZ")]
    followed by [strftime("%H:%M:%S %A, %B %d, %Y")]. *)
Variable format_time : string -> py string.

(** Lines 144-145: reading the bytes of the image file. *)
Variable read_image : string -> py (list byte).

(** Lines 156-171: the call to the Gemini API, given the time and the time
    zone that go into the system prompt, the request text and the image. *)
Variable generate_content :
  string -> string -> string -> option (list byte) -> py response.

(** [json.loads] *)
Variable json_loads : string -> py value.

(** [event_generation.event.date_parser.parse_datetime], declared outside
    the sources at hand. *)
Variable parse_datetime : value -> py value.

(** The validation that the constructor of [Event] (a pydantic model) runs
    on its arguments: [None] when it accepts them, the exception otherwise. *)
Variable Event_validation : Event -> option exn.

(** [Event(...)] *)
Definition Event_new (ev : Event) : py Event :=
  match Event_validation ev with
  | Some e => inl e
  | None => ret ev
  end.

(** *** One candidate record (lines 232-258) *)

Definition build_event (current_time_zone : string) (event : value)
  : py Event :=
  match event with
  | VDict d =>
      if negb (truthy (dict_get d "title"))
         || negb (truthy (dict_get d "start_time"))
      then inl missing_required_error
      else
        start <- parse_datetime (dict_get d "start_time") ;;
        stop <- parse_datetime (dict_get d "end_time") ;;
        until <- (if truthy (dict_get d "recurrence_end_date")
                  then parse_datetime (dict_get d "recurrence_end_date")
                  else ret VNone) ;;
        Event_new {|
          title := dict_get d "title";
          is_all_day := dict_get_default d "is_all_day" (VBool false);
          start_time := start;
          time_zone := if negb (truthy (dict_get d "time_zone"))
                       then VStr current_time_zone
                       else dict_get d "time_zone";
          end_time := stop;
          description := dict_get_default d "description" (VStr " ");
          location := dict_get_default d "location" (VStr " ");
          attendees := dict_get_default d "attendees" (VList []);
          is_recurring := dict_get_default d "is_recurring" (VBool false);
          recurrence_pattern := dict_get d "recurrence_pattern";
          recurrence_days := dict_get d "recurrence_days";
          recurrence_count := dict_get d "recurrence_count";
          recurrence_end_date := until
        |}
  | v => raise AttributeError
           ("'" ++ type_name v ++ "' object has no attribute 'get'")
  end.

(** The loop of line 229, with [event_list] as its accumulator. *)
Fixpoint build_events (current_time_zone : string) (events : list value)
  (event_list : list Event) : py (list Event) :=
  match events with
  | [] => ret event_list
  | event :: rest =>
      new_event <- build_event current_time_zone event ;;
      build_events current_time_zone rest (event_list ++ [new_event])
  end.

(** *** Decoding (lines 220-228) *)

(** The inner [try]: a [JSONDecodeError] is printed and swallowed, which
    leaves [event_data] unbound; any other exception goes on. *)
Definition decode (clean_text : string) : py (option value) :=
  match json_loads clean_text with
  | inr v => ret (Some v)
  | inl e => if is_JSONDecodeError e then ret None else inl e
  end.

(** Reading the local variable [event_data] (line 228). *)
Definition read_event_data (binding : option value) : py value :=
  match binding with
  | Some v => ret v
  | None => inl unbound_event_data
  end.

(** *** The body of the second [try] (lines 191-259) *)

(** Lines 198-229: from the response to the candidate records that the
    loop goes through. *)
Definition candidates (resp : response) : py (list value) :=
  raw_text <- first_part_text resp ;;
  match raw_text with
  | None | Some EmptyString => raise ValueError no_event_data
  | Some raw_text =>
      let clean_text := sanitize raw_text in
      match clean_text with
      | EmptyString => raise ValueError no_event_data
      | _ =>
          binding <- decode clean_text ;;
          event_data <- read_event_data binding ;;
          events <- getitem_events event_data ;;
          iterate events
      end
  end.

Definition extract (current_time_zone : string) (resp : response)
  : py (list Event) :=
  items <- candidates resp ;;
  build_events current_time_zone items [].

(** *** The body of the first [try] (lines 31-171) *)

Definition request (text local_time local_tz : string)
  (image_path : option string) : py response :=
  time_info <- format_time local_time ;;
  match image_path with
  | None | Some EmptyString =>
      generate_content time_info local_tz text None
  | Some path =>
      image_bytes <- read_image path ;;
      generate_content time_info local_tz text (Some image_bytes)
  end.

(** *** The handlers *)

Definition connection_message : string :=
  "A connection error occurred while communicating with Gemini API. Please check your internet connection.".

Definition invalid_input_message : string :=
  "An error occurred due to an invalid input or response from Gemini API.".

Definition generic_message : string :=
  "An unexpected error occurred. Please check the logs.".

(** Lines 174-188. *)
Definition handle_request_error (e : exn) : log_record * string :=
  if is_ConnectionError e then
    (mk_log "Connection error while sending request to Gemini API: %s"
            [ArgExn e] false,
     connection_message)
  else if is_ValueError e then
    (mk_log "Invalid input or response from Gemini: %s" [ArgExn e] false,
     invalid_input_message)
  else
    (mk_log "Unexpected error: %s" [ArgExn e] false,
     "An unexpected error occurred: " ++ exn_text e).

(** Lines 262-275. *)
Definition handle_extraction_error (e : exn) : log_record * string :=
  if is_ValueError e then
    (mk_log "ValueError: %s" [ArgExn e] true,
     "Invalid event data: " ++ exn_text e)
  else if is_ValidationError e then
    (mk_log "Pydantic Validation Error: %s" [ArgExn e] true,
     "Event data validation failed: " ++ exn_text e)
  else
    (mk_log "Unexpected Error: %s %s" [ArgExn e; ArgTrace e] false,
     generic_message).

(** *** [GeminiParser.parse] *)

(** The log records written and the value returned. *)
Definition parse (text local_time local_tz : string)
  (image_path : option string) : list log_record * outcome :=
  match request text local_time local_tz image_path with
  | inl e =>
      let (record, message) := handle_request_error e in
      ([record], Message message)
  | inr resp =>
      match extract local_tz resp with
      | inl e =>
          let (record, message) := handle_extraction_error e in
          ([record], Message message)
      | inr event_list => ([], EventList event_list)
      end
  end.

End Parse.

(** ** Concrete collaborators for the examples *)

Module Sample.

(** *** A JSON decoder *)

(** JSON whitespace: space, tab, line feed, carriage return. *)
Definition json_ws (c : ascii) : bool :=
  let n := nat_of_ascii c in
  Nat.eqb n 32 || Nat.eqb n 9 || Nat.eqb n 10 || Nat.eqb n 13.

Fixpoint skip_ws (s : list ascii) : list ascii :=
  match s with
  | c :: s' => if json_ws c then skip_ws s' else s
  | [] => []
  end.

Definition dquote : ascii := ascii_of_nat 34.
Definition backslash : ascii := ascii_of_nat 92.

(** The characters up to the closing quote; escapes are not handled. *)
Fixpoint scan_string (s : list ascii) : option (string * list ascii) :=
  match s with
  | [] => None
  | c :: s' =>
      if Ascii.eqb c dquote then Some (EmptyString, s')
      else if Ascii.eqb c backslash then None
      else match scan_string s' with
           | Some (str, rest) => Some (String c str, rest)
           | None => None
           end
  end.

Definition digit (c : ascii) : option Z :=
  let n := nat_of_ascii c in
  if (Nat.leb 48 n && Nat.leb n 57)%bool
  then Some (Z.of_nat n - 48)
  else None.

(** The longest run of digits at the head of [s], as a number. *)
Fixpoint scan_digits (s : list ascii) (acc : Z) (seen : bool)
  : option (Z * list ascii) :=
  match s with
  | c :: s' =>
      match digit c with
      | Some k => scan_digits s' (10 * acc + k) true
      | None => if seen then Some (acc, s) else None
      end
  | [] => if seen then Some (acc, []) else None
  end.

Fixpoint strip_literal (lit s : list ascii) : option (list ascii) :=
  match lit, s with
  | [], _ => Some s
  | a :: lit', b :: s' => if Ascii.eqb a b then strip_literal lit' s' else None
  | _ :: _, [] => None
  end.

(** [d[k] = v]: a key already there keeps its place. *)
Fixpoint dict_set (d : list (string * value)) (k : string) (v : value)
  : list (string * value) :=
  match d with
  | [] => [(k, v)]
  | (k', v') :: d' =>
      if String.eqb k k' then (k', v) :: d' else (k', v') :: dict_set d' k v
  end.

Definition decode_atom (s : list ascii) : option (value * list ascii) :=
  match strip_literal (list_ascii_of_string "true") s with
  | Some rest => Some (VBool true, rest)
  | None =>
  match strip_literal (list_ascii_of_string "false") s with
  | Some rest => Some (VBool false, rest)
  | None =>
  match strip_literal (list_ascii_of_string "null") s with
  | Some rest => Some (VNone, rest)
  | None =>
  match s with
  | c :: s' =>
      if Ascii.eqb c "-"%char
      then match scan_digits s' 0 false with
           | Some (n, rest) => Some (VInt (- n), rest)
           | None => None
           end
      else match scan_digits s 0 false with
           | Some (n, rest) => Some (VInt n, rest)
           | None => None
           end
  | [] => None
  end end end end.

Fixpoint decode_value (fuel : nat) (s : list ascii)
  : option (value * list ascii) :=
  match fuel with
  | O => None
  | S fuel =>
      match skip_ws s with
      | [] => None
      | c :: rest =>
          if Ascii.eqb c "{"%char then
            match skip_ws rest with
            | c' :: rest' =>
                if Ascii.eqb c' "}"%char then Some (VDict [], rest')
                else decode_members fuel rest []
            | [] => None
            end
          else if Ascii.eqb c "["%char then
            match skip_ws rest with
            | c' :: rest' =>
                if Ascii.eqb c' "]"%char then Some (VList [], rest')
                else decode_items fuel rest []
            | [] => None
            end
          else if Ascii.eqb c dquote then
            match scan_string rest with
            | Some (str, rest') => Some (VStr str, rest')
            | None => None
            end
          else decode_atom (c :: rest)
      end
  end
with decode_items (fuel : nat) (s : list ascii) (acc : list value)
  : option (value * list ascii) :=
  match fuel with
  | O => None
  | S fuel =>
      match decode_value fuel s with
      | Some (v, rest) =>
          match skip_ws rest with
          | c :: rest' =>
              if Ascii.eqb c ","%char then decode_items fuel rest' (acc ++ [v])
              else if Ascii.eqb c "]"%char then Some (VList (acc ++ [v]), rest')
              else None
          | [] => None
          end
      | None => None
      end
  end
with decode_members (fuel : nat) (s : list ascii)
  (acc : list (string * value)) : option (value * list ascii) :=
  match fuel with
  | O => None
  | S fuel =>
      match skip_ws s with
      | c :: rest =>
          if Ascii.eqb c dquote then
            match scan_string rest with
            | Some (k, rest1) =>
                match skip_ws rest1 with
                | c1 :: rest2 =>
                    if Ascii.eqb c1 ":"%char then
                      match decode_value fuel rest2 with
                      | Some (v, rest3) =>
                          match skip_ws rest3 with
                          | c3 :: rest4 =>
                              if Ascii.eqb c3 ","%char
                              then decode_members fuel rest4 (dict_set acc k v)
                              else if Ascii.eqb c3 "}"%char
                              then Some (VDict (dict_set acc k v), rest4)
                              else None
                          | [] => None
                          end
                      | None => None
                      end
                    else None
                | [] => None
                end
            | None => None
            end
          else None
      | [] => None
      end
  end.

(** A decoder for the JSON documents of the examples: objects, arrays,
    strings without escapes, integers, [true], [false] and [null].  It
    stands in for [json.loads], which it follows on such documents; anything
    else is reported as a [JSONDecodeError]. *)
Definition json_loads (s : string) : py value :=
  let input := list_ascii_of_string s in
  match decode_value (2 * List.length input + 2) input with
  | Some (v, rest) =>
      match skip_ws rest with
      | [] => ret v
      | _ :: _ => raise JSONDecodeError "Extra data"
      end
  | None => raise JSONDecodeError "Expecting value"
  end.

(** Writes a document with ['] in place of the double quote. *)
Fixpoint json_text (s : string) : string :=
  match s with
  | EmptyString => EmptyString
  | String c s' =>
      String (if Ascii.eqb c "'"%char then dquote else c) (json_text s')
  end.

(** *** A date resolver *)

Fixpoint number (s : string) (acc : Z) : option Z :=
  match s with
  | EmptyString => Some acc
  | String c s' =>
      match digit c with
      | Some k => number s' (10 * acc + k)
      | None => None
      end
  end.

Definition field (s : string) (start len : nat) : option Z :=
  number (substring start len s) 0.

Definition leap_year (y : Z) : bool :=
  ((y mod 4 =? 0) && negb (y mod 100 =? 0)) || (y mod 400 =? 0).

Definition days_in_month (y m : Z) : Z :=
  if m =? 2 then (if leap_year y then 29 else 28)
  else if (m =? 4) || (m =? 6) || (m =? 9) || (m =? 11) then 30
  else 31.

Definition valid_date (y m d : Z) : bool :=
  (1 <=? y) && (1 <=? m) && (m <=? 12) && (1 <=? d)
  && (d <=? days_in_month y m).

Definition valid_time (h mi s : Z) : bool :=
  (h <=? 23) && (mi <=? 59) && (s <=? 59).

Definition unparsable (s : string) : py value :=
  raise ValueError ("Unable to parse datetime: " ++ s).

(** Modelled from the spec: the date resolver
    ([event_generation.event.date_parser.parse_datetime]) is declared
    outside the sources at hand.  The spec (section 6) describes it as a
    function from a date/time string to an instant that fails with a parse
    error on unparsable input; the strings are in the two formats that the
    prompt of [parse] prescribes, [YYYYMMDD] and [YYYYMMDDTHHMMSS], and a
    date alone resolves to midnight.  What it does on [None] is not
    described: this one hands [None] back. *)
Definition parse_datetime (v : value) : py value :=
  match v with
  | VNone => ret VNone
  | VStr s =>
      match field s 0 4, field s 4 2, field s 6 2 with
      | Some y, Some m, Some d =>
          if negb (valid_date y m d) then unparsable s
          else if Nat.eqb (String.length s) 8
          then ret (VDatetime (mk_datetime y m d 0 0 0))
          else if Nat.eqb (String.length s) 15
                  && String.eqb (substring 8 1 s) "T"
          then match field s 9 2, field s 11 2, field s 13 2 with
               | Some h, Some mi, Some sec =>
                   if valid_time h mi sec
                   then ret (VDatetime (mk_datetime y m d h mi sec))
                   else unparsable s
               | _, _, _ => unparsable s
               end
          else unparsable s
      | _, _, _ => unparsable s
      end
  | v => raise TypeError ("expected a string, not " ++ type_name v)
  end.

(** A constructor that accepts every argument. *)
Definition Event_validation (ev : Event) : option exn := None.

(** The external call of the examples: the time is not reformatted, no
    image is read, and the model answers with [raw_text]. *)
Definition format_time (local_time : string) : py string := ret local_time.

Definition read_image (path : string) : py (list byte) :=
  raise FileNotFoundError
    ("[Errno 2] No such file or directory: '" ++ path ++ "'").

Definition generate_content (raw_text : string)
  (time_info current_time_zone text : string) (image : option (list byte))
  : py response :=
  ret (mk_response (ret (Some raw_text))).

(** [parse] with these collaborators, the model answering [raw_text]. *)
Definition parse (raw_text text local_time local_tz : string)
  (image_path : option string) : list log_record * outcome :=
  GeminiParser.parse format_time read_image (generate_content raw_text)
    json_loads parse_datetime Event_validation
    text local_time local_tz image_path.

(** The request of the examples. *)
Definition text : string := "see the attached note".
Definition local_time : string := "2025-03-01T09:00:00Z".
Definition local_tz : string := "America/Los_Angeles".

(** Payloads, as the model would answer them. *)
Definition fenced_empty_batch : string :=
  json_text
    "```json
{'events': []}
```".

Definition no_events_key : string := json_text "{'items': []}".

Definition not_a_record : string := json_text "{'events': [1]}".

Definition batch_with_untitled : string :=
  json_text
    "```json
{'events': [{'title': 'Kickoff', 'start_time': '20250315T090000'},
            {'start_time': '20250316T090000'},
            {'title': 'Review', 'start_time': '20250317T090000'}]}
```".

Definition trip : string :=
  json_text
    "{'events': [{'title': 'Trip', 'start_time': '20250315', 'is_all_day': false}]}".

Definition call : string :=
  json_text "{'events': [{'title': 'Call', 'start_time': '20250315T100000'}]}".

Definition party : string :=
  json_text
    "{'events': [{'title': 'Party', 'start_time': '20250315T220000', 'end_time': '20250316T000000'}]}".

Definition party_24 : string :=
  json_text
    "{'events': [{'title': 'Party', 'start_time': '20250315T220000', 'end_time': '20250315T240000'}]}".

Definition standup : string :=
  json_text
    "{'events': [{'title': 'Standup', 'start_time': '20250315T090000', 'end_time': '20250315T093000', 'is_recurring': true, 'recurrence_pattern': 'DAILY', 'recurrence_count': 5, 'recurrence_end_date': '20250630'}]}".

Definition lunch : string :=
  json_text
    "{'events': [{'title': 'Lunch', 'start_time': '20250315T120000', 'end_time': '20250315T130000', 'location': null}]}".

Definition fence_around_nothing : string :=
  "```json
```".

Definition broken : string := json_text "{'events': [}".

Definition events_null : string := json_text "{'events': null}".

Definition events_text : string := json_text "{'events': 'soon'}".

Definition events_empty_object : string := json_text "{'events': {}}".

Definition batch_with_number : string :=
  json_text
    "{'events': [{'title': 'Kickoff', 'start_time': '20250315T090000'}, 7, {'title': 'Review'}]}".

Definition batch_with_vague_date : string :=
  json_text
    "{'events': [{'title': 'Kickoff', 'start_time': '20250315T090000'}, {'title': 'Review', 'start_time': 'tomorrow'}]}".

Definition sync : string :=
  json_text
    "{'events': [{'title': 'Sync', 'start_time': '20250315T090000', 'end_time': '20250315T100000', 'time_zone': 'Europe/Paris', 'recurrence_pattern': 'FORTNIGHTLY', 'recurrence_end_date': ''}]}".

(** Collaborators that fail: a clock format that rejects every time, and
    a model that cannot be reached. *)
Definition format_time_rejecting (local_time : string) : py string :=
  raise ValueError
    ("time data '" ++ local_time
     ++ "' does not match format '%Y-%m-%dT%H:%M:%SZ'").

Definition generate_content_offline
  (time_info current_time_zone text : string) (image : option (list byte))
  : py response :=
  raise ConnectionError "Connection refused".

(** The candidate records of these payloads. *)
Definition kickoff_record : list (string * value) :=
  [("title", VStr "Kickoff"); ("start_time", VStr "20250315T090000")].

Definition sync_record : list (string * value) :=
  [("title", VStr "Sync"); ("start_time", VStr "20250315T090000");
   ("end_time", VStr "20250315T100000"); ("time_zone", VStr "Europe/Paris");
   ("recurrence_pattern", VStr "FORTNIGHTLY");
   ("recurrence_end_date", VStr EmptyString)].

Definition trip_record : list (string * value) :=
  [("title", VStr "Trip"); ("start_time", VStr "20250315");
   ("is_all_day", VBool false)].

Definition call_record : list (string * value) :=
  [("title", VStr "Call"); ("start_time", VStr "20250315T100000")].

Definition party_record : list (string * value) :=
  [("title", VStr "Party"); ("start_time", VStr "20250315T220000");
   ("end_time", VStr "20250316T000000")].

Definition standup_record : list (string * value) :=
  [("title", VStr "Standup"); ("start_time", VStr "20250315T090000");
   ("end_time", VStr "20250315T093000"); ("is_recurring", VBool true);
   ("recurrence_pattern", VStr "DAILY"); ("recurrence_count", VInt 5);
   ("recurrence_end_date", VStr "20250630")].

Definition lunch_record : list (string * value) :=
  [("title", VStr "Lunch"); ("start_time", VStr "20250315T120000");
   ("end_time", VStr "20250315T130000"); ("location", VNone)].

End Sample.

(** ** Properties of the pipeline *)

Section Properties.

Variable format_time : string -> py string.
Variable read_image : string -> py (list byte).
Variable generate_content :
  string -> string -> string -> option (list byte) -> py response.
Variable json_loads : string -> py value.
Variable parse_datetime : value -> py value.
Variable Event_validation : Event -> option exn.

Abbreviation Request := (request format_time read_image generate_content).
Abbreviation Candidates := (candidates json_loads).
Abbreviation BuildEvent := (build_event parse_datetime Event_validation).
Abbreviation BuildEvents := (build_events parse_datetime Event_validation).
Abbreviation Extract := (extract json_loads parse_datetime Event_validation).
Abbreviation Parse :=
  (parse format_time read_image generate_content json_loads parse_datetime
     Event_validation).

(** *** The error monad *)

Lemma bind_inr {A B : Type} (m : py A) (k : A -> py B) (b : B) :
  bind m k = inr b -> exists a, m = inr a /\ k a = inr b.
Proof.
  destruct m as [e | a]; simpl; intros H.
  - discriminate.
  - exists a; split; [reflexivity | exact H].
Qed.

Lemma bind_inl {A B : Type} (m : py A) (k : A -> py B) (e : exn) :
  m = inl e -> bind m k = inl e.
Proof. intros ->; reflexivity. Qed.

(** *** Dictionaries *)

Lemma dict_get_absent (d : list (string * value)) (k : string) :
  lookup k d = None -> dict_get d k = VNone.
Proof. unfold dict_get, dict_get_default; intros ->; reflexivity. Qed.

Lemma absent_lacks (d : list (string * value)) (k : string) :
  lookup k d = None -> lacks d k.
Proof. intros H; unfold lacks; rewrite dict_get_absent; auto. Qed.

Lemma empty_lacks (d : list (string * value)) (k : string) :
  lookup k d = Some (VStr EmptyString) -> lacks d k.
Proof.
  intros H; unfold lacks, dict_get, dict_get_default; rewrite H; reflexivity.
Qed.

Lemma null_lacks (d : list (string * value)) (k : string) :
  lookup k d = Some VNone -> lacks d k.
Proof.
  intros H; unfold lacks, dict_get, dict_get_default; rewrite H; reflexivity.
Qed.

(** *** One candidate *)

(** What a candidate that yields an event looks like, field by field. *)
Lemma build_event_inv (tz : string) (item : value) (ev : Event) :
  BuildEvent tz item = inr ev ->
  exists d,
    item = VDict d
    /\ truthy (dict_get d "title") = true
    /\ truthy (dict_get d "start_time") = true
    /\ parse_datetime (dict_get d "start_time") = inr (start_time ev)
    /\ parse_datetime (dict_get d "end_time") = inr (end_time ev)
    /\ (if truthy (dict_get d "recurrence_end_date")
        then parse_datetime (dict_get d "recurrence_end_date")
             = inr (recurrence_end_date ev)
        else recurrence_end_date ev = VNone)
    /\ Event_validation ev = None
    /\ ev = {|
         title := dict_get d "title";
         is_all_day := dict_get_default d "is_all_day" (VBool false);
         start_time := start_time ev;
         time_zone := if negb (truthy (dict_get d "time_zone"))
                      then VStr tz
                      else dict_get d "time_zone";
         end_time := end_time ev;
         description := dict_get_default d "description" (VStr " ");
         location := dict_get_default d "location" (VStr " ");
         attendees := dict_get_default d "attendees" (VList []);
         is_recurring := dict_get_default d "is_recurring" (VBool false);
         recurrence_pattern := dict_get d "recurrence_pattern";
         recurrence_days := dict_get d "recurrence_days";
         recurrence_count := dict_get d "recurrence_count";
         recurrence_end_date := recurrence_end_date ev
       |}.
Proof.
  destruct item as [ | b | n | f | s | l | d | t]; simpl; try discriminate.
  intros H. exists d. split; [reflexivity | ].
  destruct (truthy (dict_get d "title")) eqn:Ht; simpl in H; try discriminate.
  destruct (truthy (dict_get d "start_time")) eqn:Hs; simpl in H;
    try discriminate.
  apply bind_inr in H as (start & Hstart & H).
  apply bind_inr in H as (stop & Hstop & H).
  apply bind_inr in H as (until & Huntil & H).
  unfold Event_new in H.
  match type of H with
  | match Event_validation ?r with _ => _ end = _ =>
      destruct (Event_validation r) eqn:Hv; [discriminate | ]
  end.
  injection H as <-. simpl.
  repeat split; try assumption.
  destruct (truthy (dict_get d "recurrence_end_date")).
  - exact Huntil.
  - injection Huntil as <-; reflexivity.
Qed.

(** A candidate lacking a required field raises the [ValueError] of
    line 233. *)
Lemma build_event_missing (tz : string) (d : list (string * value)) :
  lacks d "title" \/ lacks d "start_time" ->
  BuildEvent tz (VDict d) = inl missing_required_error.
Proof.
  unfold lacks; intros [H | H]; simpl; rewrite H; simpl.
  - reflexivity.
  - destruct (truthy (dict_get d "title")); reflexivity.
Qed.

(** *** The loop *)

Lemma build_events_app (tz : string) (l1 l2 : list value)
  (acc : list Event) :
  BuildEvents tz (l1 ++ l2) acc
  = (built <- BuildEvents tz l1 acc ;; BuildEvents tz l2 built).
Proof.
  revert acc; induction l1 as [ | x l1 IH]; intros acc; simpl.
  - reflexivity.
  - destruct (BuildEvent tz x) as [e | ev]; simpl.
    + reflexivity.
    + apply IH.
Qed.

(** The events come out one per candidate, in the order of the payload. *)
Lemma build_events_inr (tz : string) (items : list value)
  (acc evs : list Event) :
  BuildEvents tz items acc = inr evs ->
  exists new,
    evs = (acc ++ new)%list
    /\ Forall2 (fun item ev => BuildEvent tz item = inr ev) items new.
Proof.
  revert acc; induction items as [ | x items IH]; intros acc; simpl.
  - intros H; injection H as <-. exists []; split.
    + symmetry; apply app_nil_r.
    + constructor.
  - intros H. apply bind_inr in H as (ev & Hev & H).
    apply IH in H as (new & -> & Hall).
    exists (ev :: new); split.
    + rewrite <- app_assoc; reflexivity.
    + constructor; assumption.
Qed.

Lemma Forall2_nth_error {A B : Type} (R : A -> B -> Prop)
  (l1 : list A) (l2 : list B) (i : nat) (a : A) :
  Forall2 R l1 l2 -> nth_error l1 i = Some a ->
  exists b, nth_error l2 i = Some b /\ R a b.
Proof.
  intros H; revert i; induction H as [ | x y l1 l2 Hxy _ IH]; intros i.
  - destruct i; discriminate.
  - destruct i as [ | i]; simpl.
    + intros [= <-]; exists y; split; [reflexivity | exact Hxy].
    + apply IH.
Qed.

(** *** From [parse] back to the candidates *)

Lemma parse_events_inv (text local_time local_tz : string)
  (image_path : option string) (resp : response) (items : list value)
  (evs : list Event) :
  Request text local_time local_tz image_path = inr resp ->
  Candidates resp = inr items ->
  snd (Parse text local_time local_tz image_path) = EventList evs ->
  Forall2 (fun item ev => BuildEvent local_tz item = inr ev) items evs.
Proof.
  intros Hreq Hcand. unfold parse. rewrite Hreq.
  unfold extract. rewrite Hcand. simpl.
  destruct (BuildEvents local_tz items []) as [e | built] eqn:Hb.
  - destruct (handle_extraction_error e); simpl; discriminate.
  - simpl. intros [= <-].
    apply build_events_inr in Hb as (new & -> & Hall). exact Hall.
Qed.

(** The i-th candidate of a successful extraction gives the i-th event. *)
Lemma candidate_event (text local_time local_tz : string)
  (image_path : option string) (resp : response) (items : list value)
  (evs : list Event) (i : nat) (item : value) :
  Request text local_time local_tz image_path = inr resp ->
  Candidates resp = inr items ->
  snd (Parse text local_time local_tz image_path) = EventList evs ->
  nth_error items i = Some item ->
  exists ev,
    nth_error evs i = Some ev /\ BuildEvent local_tz item = inr ev.
Proof.
  intros Hreq Hcand Hparse Hi.
  pose proof (parse_events_inv _ _ _ _ _ _ _ Hreq Hcand Hparse) as Hall.
  destruct (Forall2_nth_error _ _ _ _ _ Hall Hi) as (ev & Hev & Hb).
  exists ev; split; assumption.
Qed.

(** A failure of the second [try] is fatal: [parse] returns the message of
    the handler and no event. *)
Lemma parse_extraction_failure (text local_time local_tz : string)
  (image_path : option string) (resp : response) (e : exn) :
  Request text local_time local_tz image_path = inr resp ->
  Extract local_tz resp = inl e ->
  Parse text local_time local_tz image_path
  = ([fst (handle_extraction_error e)],
     Message (snd (handle_extraction_error e))).
Proof.
  intros Hreq Hex. unfold parse. rewrite Hreq, Hex.
  destruct (handle_extraction_error e); reflexivity.
Qed.

(** *** Payloads without candidates *)

Lemma sanitize_nonempty (raw_text : string) :
  sanitize raw_text <> EmptyString -> raw_text <> EmptyString.
Proof. intros H ->; apply H; reflexivity. Qed.

(** The candidates of a response whose sanitized text is not empty. *)
Lemma candidates_of_text (resp : response) (raw_text : string) :
  first_part_text resp = inr (Some raw_text) ->
  sanitize raw_text <> EmptyString ->
  Candidates resp
  = (binding <- decode json_loads (sanitize raw_text) ;;
     event_data <- read_event_data binding ;;
     events <- getitem_events event_data ;;
     iterate events).
Proof.
  intros Htext Hclean. unfold candidates. rewrite Htext. simpl.
  destruct raw_text as [ | c raw_text].
  - exfalso; apply Hclean; reflexivity.
  - destruct (sanitize (String c raw_text)) eqn:Hs.
    + exfalso; apply Hclean; reflexivity.
    + reflexivity.
Qed.

Lemma getitem_events_missing (event_data : value) :
  has_events_key event_data = false ->
  exists e,
    getitem_events event_data = inl e
    /\ is_ValueError e = false /\ is_ValidationError e = false.
Proof.
  destruct event_data as [ | b | n | f | s | l | d | t]; simpl; intros H;
    try (eexists; split; [reflexivity | split; reflexivity]).
  destruct (lookup "events" d); [discriminate | ].
  eexists; split; [reflexivity | split; reflexivity].
Qed.

Lemma catch_all (e : exn) :
  is_ValueError e = false -> is_ValidationError e = false ->
  handle_extraction_error e
  = (mk_log "Unexpected Error: %s %s" [ArgExn e; ArgTrace e] false,
     generic_message).
Proof. intros H1 H2; unfold handle_extraction_error; rewrite H1, H2; auto. Qed.

(** X4.  A payload that [json.loads] rejects with a [JSONDecodeError]: the inner
    handler swallows the error, reading [event_data] then raises an
    [UnboundLocalError], and the catch-all of line 272 reports it. *)
Lemma undecodable_payload (text local_time local_tz : string)
  (image_path : option string) (resp : response) (raw_text : string)
  (e : exn) :
  Request text local_time local_tz image_path = inr resp ->
  first_part_text resp = inr (Some raw_text) ->
  sanitize raw_text <> EmptyString ->
  json_loads (sanitize raw_text) = inl e ->
  is_JSONDecodeError e = true ->
  Parse text local_time local_tz image_path
  = ([mk_log "Unexpected Error: %s %s"
        [ArgExn unbound_event_data; ArgTrace unbound_event_data] false],
     Message generic_message).
Proof.
  intros Hreq Htext Hclean Hjson Hcls.
  erewrite parse_extraction_failure with (e := unbound_event_data).
  - reflexivity.
  - exact Hreq.
  - unfold extract. rewrite (candidates_of_text _ _ Htext Hclean).
    unfold decode. rewrite Hjson, Hcls. reflexivity.
Qed.

(** C1 (as amended).  For every sanitized payload that decodes but has no
    top-level ["events"] key, the extraction fails as a whole: subscripting
    raises an exception that is neither a [ValueError] nor a
    [ValidationError], so [parse] reports it through the catch-all handler,
    logs it with its stack trace and returns the generic message, and no
    event. *)
Theorem payload_without_events_key (text local_time local_tz : string)
  (image_path : option string) (resp : response) (raw_text : string)
  (event_data : value) :
  Request text local_time local_tz image_path = inr resp ->
  first_part_text resp = inr (Some raw_text) ->
  sanitize raw_text <> EmptyString ->
  json_loads (sanitize raw_text) = inr event_data ->
  has_events_key event_data = false ->
  exists e,
    getitem_events event_data = inl e
    /\ is_ValueError e = false
    /\ Parse text local_time local_tz image_path
       = ([mk_log "Unexpected Error: %s %s" [ArgExn e; ArgTrace e] false],
          Message generic_message).
Proof.
  intros Hreq Htext Hclean Hjson Hkey.
  destruct (getitem_events_missing _ Hkey) as (e & Hget & Hve & Hvd).
  exists e. split; [exact Hget | split; [exact Hve | ]].
  rewrite (parse_extraction_failure _ _ _ _ resp e Hreq).
  - rewrite (catch_all e Hve Hvd). reflexivity.
  - unfold extract. rewrite (candidates_of_text _ _ Htext Hclean).
    unfold decode. rewrite Hjson. simpl. rewrite Hget. reflexivity.
Qed.

(** *** Required fields *)

(** C2.  When a candidate record lacks [title] or [start_time] (absent,
    null or empty), [parse] returns a message and no event at all, whatever
    the other candidates of the batch are; and when the candidates before
    it were built, the message is the one of the missing required field,
    logged as a [ValueError]. *)
Theorem missing_required_field_aborts_batch (text local_time local_tz : string)
  (image_path : option string) (resp : response)
  (before after : list value) (d : list (string * value)) :
  Request text local_time local_tz image_path = inr resp ->
  Candidates resp = inr (before ++ VDict d :: after)%list ->
  lacks d "title" \/ lacks d "start_time" ->
  (exists record message,
      Parse text local_time local_tz image_path
      = ([record], Message message))
  /\ (forall built,
        BuildEvents local_tz before [] = inr built ->
        Parse text local_time local_tz image_path
        = ([mk_log "ValueError: %s" [ArgExn missing_required_error] true],
           Message ("Invalid event data: " ++ missing_required))).
Proof.
  intros Hreq Hcand Hlacks.
  assert (Hex : Extract local_tz resp
                = (built <- BuildEvents local_tz before [] ;;
                   inl missing_required_error)).
  { unfold extract. rewrite Hcand. simpl. rewrite build_events_app.
    destruct (BuildEvents local_tz before []) as [e | built]; cbn [bind].
    - reflexivity.
    - cbn [build_events].
      rewrite (build_event_missing local_tz d Hlacks). reflexivity. }
  split.
  - destruct (BuildEvents local_tz before []) as [e | built]; simpl in Hex.
    + rewrite (parse_extraction_failure _ _ _ _ resp e Hreq Hex).
      eexists; eexists; reflexivity.
    + rewrite (parse_extraction_failure _ _ _ _ resp _ Hreq Hex).
      eexists; eexists; reflexivity.
  - intros built Hbuilt. rewrite Hbuilt in Hex. simpl in Hex.
    rewrite (parse_extraction_failure _ _ _ _ resp _ Hreq Hex).
    reflexivity.
Qed.

(** *** The fields of the events *)

(** Brings the event built from the candidate [Hi] into the context, with
    the facts of [build_event_inv]. *)
Ltac candidate_fields Hreq Hcand Hparse Hi ev Hrec :=
  let Hev := fresh "Hev" in
  let Hb := fresh "Hb" in
  let d' := fresh "d" in
  let Hd := fresh "Hd" in
  destruct (candidate_event _ _ _ _ _ _ _ _ _ Hreq Hcand Hparse Hi)
    as (ev & Hev & Hb);
  destruct (build_event_inv _ _ _ Hb)
    as (d' & Hd & ? & ? & ? & ? & ? & ? & Hrec);
  injection Hd as <-;
  exists ev; split; [exact Hev | ].

(** C3 (as amended).  The event built from a candidate carries the upstream
    [is_all_day] value whenever the candidate has one, whatever its
    [start_time] is, a date without a time included: [parse] does not infer
    the flag from [start_time]. *)
Theorem all_day_flag_is_upstream (text local_time local_tz : string)
  (image_path : option string) (resp : response) (items : list value)
  (evs : list Event) (i : nat) (d : list (string * value))
  (flag : value) :
  Request text local_time local_tz image_path = inr resp ->
  Candidates resp = inr items ->
  snd (Parse text local_time local_tz image_path) = EventList evs ->
  nth_error items i = Some (VDict d) ->
  lookup "is_all_day" d = Some flag ->
  exists ev, nth_error evs i = Some ev /\ is_all_day ev = flag.
Proof.
  intros Hreq Hcand Hparse Hi Hflag.
  candidate_fields Hreq Hcand Hparse Hi ev Hrec.
  rewrite Hrec; simpl. unfold dict_get_default. rewrite Hflag. reflexivity.
Qed.

(** C4 (as amended).  For a candidate without [end_time], the event's
    [end_time] is what [parse_datetime] returns for [None]; it does not
    depend on [start_time], and [parse] adds no hour and clamps nothing. *)
Theorem absent_end_time_is_resolver_of_none (text local_time local_tz : string)
  (image_path : option string) (resp : response) (items : list value)
  (evs : list Event) (i : nat) (d : list (string * value)) :
  Request text local_time local_tz image_path = inr resp ->
  Candidates resp = inr items ->
  snd (Parse text local_time local_tz image_path) = EventList evs ->
  nth_error items i = Some (VDict d) ->
  lookup "end_time" d = None ->
  exists ev,
    nth_error evs i = Some ev /\ parse_datetime VNone = inr (end_time ev).
Proof.
  intros Hreq Hcand Hparse Hi Habsent.
  candidate_fields Hreq Hcand Hparse Hi ev Hrec.
  rewrite <- (dict_get_absent d "end_time" Habsent). assumption.
Qed.

(** C5 (as amended).  The event's [end_time] is exactly what
    [parse_datetime] returns for the candidate's [end_time]: [parse] applies
    no midnight clamp of its own, so an end that resolves to 00:00 stays
    00:00. *)
Theorem end_time_is_resolver_result (text local_time local_tz : string)
  (image_path : option string) (resp : response) (items : list value)
  (evs : list Event) (i : nat) (d : list (string * value)) :
  Request text local_time local_tz image_path = inr resp ->
  Candidates resp = inr items ->
  snd (Parse text local_time local_tz image_path) = EventList evs ->
  nth_error items i = Some (VDict d) ->
  exists ev,
    nth_error evs i = Some ev
    /\ parse_datetime (dict_get d "end_time") = inr (end_time ev).
Proof.
  intros Hreq Hcand Hparse Hi.
  candidate_fields Hreq Hcand Hparse Hi ev Hrec.
  assumption.
Qed.

Lemma Forall2_right {A B : Type} (R : A -> B -> Prop) (P : B -> Prop)
  (l1 : list A) (l2 : list B) :
  (forall a b, R a b -> P b) -> Forall2 R l1 l2 -> Forall P l2.
Proof.
  intros HRP H; induction H; constructor; eauto.
Qed.

Lemma time_zone_truthy (tz : string) (item : value) (ev : Event) :
  tz <> EmptyString ->
  BuildEvent tz item = inr ev -> truthy (time_zone ev) = true.
Proof.
  intros Htz Hb.
  destruct (build_event_inv _ _ _ Hb)
    as (d & _ & _ & _ & _ & _ & _ & _ & Hrec).
  rewrite Hrec; simpl.
  destruct (truthy (dict_get d "time_zone")) eqn:Hz; simpl.
  - exact Hz.
  - destruct tz; [contradiction | reflexivity].
Qed.

(** C6 (as amended).  For every candidate whose [time_zone] is absent, null
    or empty, the event's [time_zone] is the ambient time zone that the
    caller passed to [parse]; and when that ambient time zone is not the
    empty string, every event of the result carries a non-empty
    [time_zone]. *)
Theorem time_zone_defaults_to_ambient (text local_time local_tz : string)
  (image_path : option string) (resp : response) (items : list value)
  (evs : list Event) :
  Request text local_time local_tz image_path = inr resp ->
  Candidates resp = inr items ->
  snd (Parse text local_time local_tz image_path) = EventList evs ->
  (forall i d,
      nth_error items i = Some (VDict d) ->
      lacks d "time_zone" ->
      exists ev, nth_error evs i = Some ev /\ time_zone ev = VStr local_tz)
  /\ (local_tz <> EmptyString ->
      Forall (fun ev => truthy (time_zone ev) = true) evs).
Proof.
  intros Hreq Hcand Hparse. split.
  - intros i d Hi Hlacks.
    candidate_fields Hreq Hcand Hparse Hi ev Hrec.
    rewrite Hrec; simpl. unfold lacks in Hlacks. rewrite Hlacks. reflexivity.
  - intros Htz.
    pose proof (parse_events_inv _ _ _ _ _ _ _ Hreq Hcand Hparse) as Hall.
    revert Hall. apply Forall2_right.
    intros item ev. apply time_zone_truthy. exact Htz.
Qed.

(** C7 (as amended).  For a candidate that has both [recurrence_count] and
    a non-empty [recurrence_end_date], the event keeps both: the count as
    given, and the end date as [parse_datetime] resolves it. *)
Theorem recurrence_count_and_end_date_kept (text local_time local_tz : string)
  (image_path : option string) (resp : response) (items : list value)
  (evs : list Event) (i : nat) (d : list (string * value))
  (count : value) :
  Request text local_time local_tz image_path = inr resp ->
  Candidates resp = inr items ->
  snd (Parse text local_time local_tz image_path) = EventList evs ->
  nth_error items i = Some (VDict d) ->
  lookup "recurrence_count" d = Some count ->
  truthy (dict_get d "recurrence_end_date") = true ->
  exists ev,
    nth_error evs i = Some ev
    /\ recurrence_count ev = count
    /\ parse_datetime (dict_get d "recurrence_end_date")
       = inr (recurrence_end_date ev).
Proof.
  intros Hreq Hcand Hparse Hi Hcount Hend.
  candidate_fields Hreq Hcand Hparse Hi ev Hrec.
  split.
  - rewrite Hrec; simpl. unfold dict_get, dict_get_default.
    rewrite Hcount. reflexivity.
  - match goal with
    | H : if truthy _ then _ else _ |- _ => rewrite Hend in H; exact H
    end.
Qed.

(** C8 (as amended).  When the key is absent from the candidate record,
    [description] and [location] are the one-character string [" "] (a
    single space) and [attendees] is the empty list; a [description] or
    [location] that is present is passed on as it is, [null] included. *)
Theorem placeholder_defaults (text local_time local_tz : string)
  (image_path : option string) (resp : response) (items : list value)
  (evs : list Event) (i : nat) (d : list (string * value)) :
  Request text local_time local_tz image_path = inr resp ->
  Candidates resp = inr items ->
  snd (Parse text local_time local_tz image_path) = EventList evs ->
  nth_error items i = Some (VDict d) ->
  exists ev,
    nth_error evs i = Some ev
    /\ (lookup "description" d = None -> description ev = VStr " ")
    /\ (lookup "location" d = None -> location ev = VStr " ")
    /\ (lookup "attendees" d = None -> attendees ev = VList [])
    /\ (forall v, lookup "description" d = Some v -> description ev = v)
    /\ (forall v, lookup "location" d = Some v -> location ev = v).
Proof.
  intros Hreq Hcand Hparse Hi.
  candidate_fields Hreq Hcand Hparse Hi ev Hrec.
  rewrite Hrec; simpl; unfold dict_get_default.
  repeat split; intros;
    match goal with H : lookup _ _ = _ |- _ => rewrite H end;
    reflexivity.
Qed.

Lemma build_event_default_flag (tz : string) (d : list (string * value)) :
  lookup "is_all_day" d = None ->
  BuildEvent tz (VDict d)
  = BuildEvent tz (VDict (("is_all_day", VBool false) :: d)).
Proof.
  intros Habsent. unfold build_event, dict_get, dict_get_default.
  cbn [lookup String.eqb Ascii.eqb Bool.eqb andb].
  rewrite Habsent. reflexivity.
Qed.

(** C10.  For a candidate without the [is_all_day] key, the event has
    [is_all_day = False]; the absence is no error, for the candidate is
    processed exactly as if it carried [is_all_day: false]. *)
Theorem absent_all_day_flag_is_false (text local_time local_tz : string)
  (image_path : option string) (resp : response) (items : list value)
  (evs : list Event) (i : nat) (d : list (string * value)) :
  Request text local_time local_tz image_path = inr resp ->
  Candidates resp = inr items ->
  snd (Parse text local_time local_tz image_path) = EventList evs ->
  nth_error items i = Some (VDict d) ->
  lookup "is_all_day" d = None ->
  (exists ev, nth_error evs i = Some ev /\ is_all_day ev = VBool false)
  /\ BuildEvent local_tz (VDict d)
     = BuildEvent local_tz (VDict (("is_all_day", VBool false) :: d)).
Proof.
  intros Hreq Hcand Hparse Hi Habsent. split.
  - candidate_fields Hreq Hcand Hparse Hi ev Hrec.
    rewrite Hrec; simpl. unfold dict_get_default. rewrite Habsent.
    reflexivity.
  - apply build_event_default_flag; exact Habsent.
Qed.

(** *** The catch-all handlers *)

(** The catch-all of the first [try] (line 186) puts the text of the
    exception into the message it returns. *)
Lemma request_catch_all (text local_time local_tz : string)
  (image_path : option string) (e : exn) :
  Request text local_time local_tz image_path = inl e ->
  is_ConnectionError e = false ->
  is_ValueError e = false ->
  Parse text local_time local_tz image_path
  = ([mk_log "Unexpected error: %s" [ArgExn e] false],
     Message ("An unexpected error occurred: " ++ exn_text e)).
Proof.
  intros Hreq Hc Hv. unfold parse, handle_request_error.
  rewrite Hreq, Hc, Hv. reflexivity.
Qed.

(** X19.  The catch-all of the second [try] (line 272) returns the same message
    for every exception, and logs the exception with its stack trace. *)
Lemma extraction_catch_all (text local_time local_tz : string)
  (image_path : option string) (resp : response) (e : exn) :
  Request text local_time local_tz image_path = inr resp ->
  Extract local_tz resp = inl e ->
  is_ValueError e = false ->
  Parse text local_time local_tz image_path
  = ([mk_log "Unexpected Error: %s %s" [ArgExn e; ArgTrace e] false],
     Message generic_message).
Proof.
  intros Hreq Hex Hv.
  rewrite (parse_extraction_failure _ _ _ _ resp e Hreq Hex).
  rewrite catch_all; [reflexivity | exact Hv | ].
  unfold is_ValueError in Hv. unfold is_ValidationError.
  destruct (exn_cls e); try reflexivity; discriminate.
Qed.

(** *** Stripping and fences *)

Lemma length_app (s t : string) :
  String.length (s ++ t) = (String.length s + String.length t)%nat.
Proof. induction s as [ | c s IH]; simpl; [ | rewrite IH]; reflexivity. Qed.

Lemma substring_all (t : string) : substring 0 (String.length t) t = t.
Proof. induction t as [ | c t IH]; simpl; [ | rewrite IH]; reflexivity. Qed.

Lemma substring_skip (p t : string) :
  substring (String.length p) (String.length t) (p ++ t) = t.
Proof. induction p as [ | c p IH]; simpl; [apply substring_all | exact IH]. Qed.

Lemma substring_take (x p : string) :
  substring 0 (String.length x) (x ++ p) = x.
Proof.
  induction x as [ | c x IH]; simpl.
  - destruct p; reflexivity.
  - rewrite IH; reflexivity.
Qed.

Lemma startswith_app (p t : string) : startswith (p ++ t) p = true.
Proof.
  unfold startswith. induction p as [ | c p IH]; simpl.
  - destruct t; reflexivity.
  - destruct (ascii_dec c c) as [_ | Hc]; [exact IH | contradiction].
Qed.

Lemma drop_prefix_app (p t : string) :
  drop_prefix (String.length p) (p ++ t) = t.
Proof.
  unfold drop_prefix. rewrite length_app.
  replace (String.length p + String.length t - String.length p)%nat
    with (String.length t) by lia.
  apply substring_skip.
Qed.

Lemma drop_suffix_app (x p : string) :
  drop_suffix (String.length p) (x ++ p) = x.
Proof.
  unfold drop_suffix. rewrite length_app.
  replace (String.length x + String.length p - String.length p)%nat
    with (String.length x) by lia.
  apply substring_take.
Qed.

Lemma endswith_app (x p : string) : endswith (x ++ p) p = true.
Proof.
  unfold endswith. rewrite length_app.
  replace (String.length x + String.length p - String.length p)%nat
    with (String.length x) by lia.
  rewrite <- length_app, drop_prefix_app, String.eqb_refl.
  rewrite length_app, andb_true_r. apply Nat.leb_le. lia.
Qed.

Lemma lstrip_leading (s : string) : leading_space (lstrip s) = false.
Proof.
  induction s as [ | c s IH]; simpl; [reflexivity | ].
  destruct (isspace c) eqn:Hc; [exact IH | simpl; exact Hc].
Qed.

Lemma lstrip_fixed (s : string) : leading_space s = false -> lstrip s = s.
Proof. destruct s as [ | c s]; simpl; [ | intros ->]; reflexivity. Qed.

Lemma rstrip_leading (s : string) :
  leading_space s = false -> leading_space (rstrip s) = false.
Proof.
  destruct s as [ | c s]; simpl; [reflexivity | intros Hc].
  destruct (rstrip s); [rewrite Hc | ]; simpl; exact Hc.
Qed.



Lemma strip_fixed (s : string) :
  strip s = s -> lstrip s = s /\ rstrip s = s.
Proof.
  intros H.
  assert (Hl : lstrip s = s).
  { apply lstrip_fixed. rewrite <- H. unfold strip.
    apply rstrip_leading, lstrip_leading. }
  split; [exact Hl | ]. unfold strip in H. rewrite Hl in H. exact H.
Qed.

Lemma lstrip_all_space (w x : string) :
  all_space w = true -> lstrip (w ++ x) = lstrip x.
Proof.
  induction w as [ | c w IH]; simpl; [reflexivity | ].
  intros H. apply andb_true_iff in H as [Hc Hw]. rewrite Hc. auto.
Qed.

Lemma rstrip_all_space (x w : string) :
  all_space w = true -> rstrip (x ++ w) = rstrip x.
Proof.
  intros Hw.
  assert (Hnil : rstrip w = EmptyString).
  { induction w as [ | c w IH]; simpl; [reflexivity | ].
    simpl in Hw. apply andb_true_iff in Hw as [Hc Hw].
    rewrite (IH Hw), Hc. reflexivity. }
  induction x as [ | c x IH]; simpl; [exact Hnil | ].
  rewrite IH. reflexivity.
Qed.

Lemma rstrip_fence (x : string) :
  rstrip (x ++ fence_close) = x ++ fence_close.
Proof.
  induction x as [ | c x IH]; [reflexivity | ].
  cbn [append rstrip]. rewrite IH.
  destruct x; reflexivity.
Qed.

(** X1.  The text between an opening and a closing fence comes back as it is:
    the fences and the whitespace around the text are removed, nothing
    else. *)
Theorem sanitize_fenced (blank1 blank2 body : string) :
  all_space blank1 = true ->
  all_space blank2 = true ->
  strip body = body ->
  sanitize (fence_open ++ blank1 ++ body ++ blank2 ++ fence_close) = body.
Proof.
  intros H1 H2 Hbody. destruct (strip_fixed body Hbody) as [Hl Hr].
  unfold sanitize. rewrite startswith_app, drop_prefix_app.
  destruct body as [ | c body].
  - assert (Hfirst : strip (blank1 ++ EmptyString ++ blank2 ++ fence_close)
                     = fence_close).
    { unfold strip. rewrite (lstrip_all_space blank1 _ H1). cbn [append].
      rewrite (lstrip_all_space blank2 _ H2). reflexivity. }
    rewrite Hfirst. reflexivity.
  - assert (Hlead : leading_space (String c body) = false).
    { rewrite <- Hl. apply lstrip_leading. }
    assert (Hfirst : strip (blank1 ++ String c body ++ blank2 ++ fence_close)
                     = (String c body ++ blank2) ++ fence_close).
    { unfold strip. rewrite (lstrip_all_space blank1 _ H1).
      rewrite (lstrip_fixed (String c body ++ blank2 ++ fence_close))
        by exact Hlead.
      replace (String c body ++ blank2 ++ fence_close)
        with ((String c body ++ blank2) ++ fence_close).
      - apply rstrip_fence.
      - clear. induction (String c body) as [ | a s IH]; simpl;
          [ | rewrite IH]; reflexivity. }
    rewrite Hfirst, endswith_app.
    change (drop_suffix 3) with (drop_suffix (String.length fence_close)).
    rewrite (drop_suffix_app (String c body ++ blank2) fence_close).
    unfold strip. rewrite (lstrip_fixed (String c body ++ blank2) Hlead).
    rewrite (rstrip_all_space _ _ H2). exact Hr.
Qed.


(** *** Answers without text *)

(** X3.  An answer without text, with an empty text, or whose text is empty
    once sanitised (fences around nothing) is reported as missing event
    data; the decoder is not consulted. *)
Theorem empty_answer_reported (text local_time local_tz : string)
  (image_path : option string) (resp : response) :
  Request text local_time local_tz image_path = inr resp ->
  first_part_text resp = inr None
  \/ (exists raw_text,
         first_part_text resp = inr (Some raw_text)
         /\ sanitize raw_text = EmptyString) ->
  Parse text local_time local_tz image_path
  = ([mk_log "ValueError: %s" [ArgExn (mk_exn ValueError no_event_data)] true],
     Message ("Invalid event data: " ++ no_event_data)).
Proof.
  intros Hreq Htext.
  rewrite (parse_extraction_failure _ _ _ _ resp
             (mk_exn ValueError no_event_data) Hreq); [reflexivity | ].
  unfold extract, candidates.
  destruct Htext as [Htext | (raw_text & Htext & Hclean)]; rewrite Htext.
  - reflexivity.
  - cbn [bind]. destruct raw_text as [ | c raw_text]; [reflexivity | ].
    rewrite Hclean. reflexivity.
Qed.

(** *** Whole batches *)

Lemma build_events_of_all (tz : string) (items : list value)
  (evs acc : list Event) :
  Forall2 (fun item ev => BuildEvent tz item = inr ev) items evs ->
  BuildEvents tz items acc = inr (acc ++ evs)%list.
Proof.
  intros Hall; revert acc.
  induction Hall as [ | item ev items evs Hb _ IH]; intros acc; simpl.
  - rewrite app_nil_r; reflexivity.
  - rewrite Hb; simpl. rewrite IH, <- app_assoc. reflexivity.
Qed.

(** X5.  [parse] returns a list of events exactly when every candidate of the
    payload can be built, and then the list holds one event per candidate,
    in the order of the payload, and nothing is logged. *)
Theorem parse_succeeds_iff (text local_time local_tz : string)
  (image_path : option string) (resp : response)
  (items : list value) (evs : list Event) :
  Request text local_time local_tz image_path = inr resp ->
  Candidates resp = inr items ->
  Parse text local_time local_tz image_path = ([], EventList evs)
  <-> Forall2 (fun item ev => BuildEvent local_tz item = inr ev) items evs.
Proof.
  intros Hreq Hcand; split.
  - intros Hparse. eapply parse_events_inv; try eassumption.
    rewrite Hparse; reflexivity.
  - intros Hall. unfold parse. rewrite Hreq. unfold extract.
    rewrite Hcand. cbn [bind].
    rewrite (build_events_of_all local_tz items evs [] Hall). reflexivity.
Qed.

Lemma extract_first_failure (tz : string) (resp : response)
  (before after : list value) (built : list Event) (item : value)
  (e : exn) :
  Candidates resp = inr (before ++ item :: after)%list ->
  BuildEvents tz before [] = inr built ->
  BuildEvent tz item = inl e ->
  Extract tz resp = inl e.
Proof.
  intros Hcand Hbefore Hitem.
  unfold extract. rewrite Hcand. cbn [bind].
  rewrite build_events_app, Hbefore. cbn [bind build_events].
  rewrite Hitem. reflexivity.
Qed.

(** X6.  The first candidate that cannot be built decides the result: [parse]
    returns the message of the handler for its exception, whatever the
    candidates after it are; these are not looked at, and the events
    already built are dropped. *)
Theorem first_failure_decides (text local_time local_tz : string)
  (image_path : option string) (resp : response)
  (before after : list value) (built : list Event) (item : value)
  (e : exn) :
  Request text local_time local_tz image_path = inr resp ->
  Candidates resp = inr (before ++ item :: after)%list ->
  BuildEvents local_tz before [] = inr built ->
  BuildEvent local_tz item = inl e ->
  Parse text local_time local_tz image_path
  = ([fst (handle_extraction_error e)],
     Message (snd (handle_extraction_error e))).
Proof.
  intros Hreq Hcand Hbefore Hitem.
  apply (parse_extraction_failure _ _ _ _ resp e Hreq).
  eapply extract_first_failure; eassumption.
Qed.

(** X7.  A candidate that is not a JSON object (a number, a string, a list,
    [null]) has no [get]: the [AttributeError] goes to the catch-all
    handler and the whole batch is lost. *)
Theorem candidate_not_an_object (text local_time local_tz : string)
  (image_path : option string) (resp : response)
  (before after : list value) (built : list Event) (item : value) :
  Request text local_time local_tz image_path = inr resp ->
  Candidates resp = inr (before ++ item :: after)%list ->
  BuildEvents local_tz before [] = inr built ->
  (forall d, item <> VDict d) ->
  let e := mk_exn AttributeError
             ("'" ++ type_name item ++ "' object has no attribute 'get'") in
  Parse text local_time local_tz image_path
  = ([mk_log "Unexpected Error: %s %s" [ArgExn e; ArgTrace e] false],
     Message generic_message).
Proof.
  intros Hreq Hcand Hbefore Hitem e.
  rewrite (parse_extraction_failure _ _ _ _ resp e Hreq); [reflexivity | ].
  eapply extract_first_failure; try eassumption.
  destruct item; try reflexivity. exfalso; eapply Hitem; reflexivity.
Qed.

(** *** The value under ["events"] *)

Lemma candidates_of_document (resp : response) (raw_text : string)
  (d : list (string * value)) (v : value) :
  first_part_text resp = inr (Some raw_text) ->
  sanitize raw_text <> EmptyString ->
  json_loads (sanitize raw_text) = inr (VDict d) ->
  lookup "events" d = Some v ->
  Candidates resp = iterate v.
Proof.
  intros Htext Hclean Hjson Hkey.
  rewrite (candidates_of_text _ _ Htext Hclean).
  unfold decode. rewrite Hjson. cbn [bind ret read_event_data getitem_events].
  rewrite Hkey. reflexivity.
Qed.

(** X8.  When ["events"] holds a value that cannot be iterated ([null], a
    boolean, a number), the [TypeError] goes to the catch-all handler. *)
Theorem events_not_iterable (text local_time local_tz : string)
  (image_path : option string) (resp : response)
  (raw_text : string) (d : list (string * value)) (v : value) :
  Request text local_time local_tz image_path = inr resp ->
  first_part_text resp = inr (Some raw_text) ->
  sanitize raw_text <> EmptyString ->
  json_loads (sanitize raw_text) = inr (VDict d) ->
  lookup "events" d = Some v ->
  (forall l, v <> VList l) ->
  (forall d', v <> VDict d') ->
  (forall s, v <> VStr s) ->
  let e := mk_exn TypeError
             ("'" ++ type_name v ++ "' object is not iterable") in
  Parse text local_time local_tz image_path
  = ([mk_log "Unexpected Error: %s %s" [ArgExn e; ArgTrace e] false],
     Message generic_message).
Proof.
  intros Hreq Htext Hclean Hjson Hkey Hl Hd Hs e.
  rewrite (parse_extraction_failure _ _ _ _ resp e Hreq); [reflexivity | ].
  unfold extract.
  rewrite (candidates_of_document _ _ _ _ Htext Hclean Hjson Hkey).
  destruct v; try reflexivity; exfalso;
    [eapply Hs | eapply Hl | eapply Hd]; reflexivity.
Qed.

(** X9.  When ["events"] holds a non-empty object or a non-empty string instead
    of a list, the loop runs over the keys or the characters, which are
    strings: the very first one fails with an [AttributeError], whatever
    the object holds. *)
Theorem events_object_or_string (text local_time local_tz : string)
  (image_path : option string) (resp : response)
  (raw_text : string) (d : list (string * value)) (v : value) :
  Request text local_time local_tz image_path = inr resp ->
  first_part_text resp = inr (Some raw_text) ->
  sanitize raw_text <> EmptyString ->
  json_loads (sanitize raw_text) = inr (VDict d) ->
  lookup "events" d = Some v ->
  (exists c s, v = VStr (String c s))
  \/ (exists k x d', v = VDict ((k, x) :: d')) ->
  let e := mk_exn AttributeError "'str' object has no attribute 'get'" in
  Parse text local_time local_tz image_path
  = ([mk_log "Unexpected Error: %s %s" [ArgExn e; ArgTrace e] false],
     Message generic_message).
Proof.
  intros Hreq Htext Hclean Hjson Hkey Hv e.
  rewrite (parse_extraction_failure _ _ _ _ resp e Hreq); [reflexivity | ].
  unfold extract.
  rewrite (candidates_of_document _ _ _ _ Htext Hclean Hjson Hkey).
  destruct Hv as [(c & s0 & ->) | (k & x & d' & ->)]; reflexivity.
Qed.

(** X10.  When ["events"] holds an empty list, an empty object or an empty
    string, the loop does not run: [parse] returns the empty list and logs
    nothing. *)
Theorem events_empty (text local_time local_tz : string)
  (image_path : option string) (resp : response)
  (raw_text : string) (d : list (string * value)) (v : value) :
  Request text local_time local_tz image_path = inr resp ->
  first_part_text resp = inr (Some raw_text) ->
  sanitize raw_text <> EmptyString ->
  json_loads (sanitize raw_text) = inr (VDict d) ->
  lookup "events" d = Some v ->
  v = VList [] \/ v = VDict [] \/ v = VStr EmptyString ->
  Parse text local_time local_tz image_path = ([], EventList []).
Proof.
  intros Hreq Htext Hclean Hjson Hkey Hv.
  unfold parse. rewrite Hreq. unfold extract.
  rewrite (candidates_of_document _ _ _ _ Htext Hclean Hjson Hkey).
  destruct Hv as [-> | [-> | ->]]; reflexivity.
Qed.

(** *** What [parse] returns *)


Lemma validation_is_value_error (e : exn) :
  is_ValueError e = false -> is_ValidationError e = false.
Proof.
  unfold is_ValueError, is_ValidationError.
  destruct (exn_cls e); intros H; try reflexivity; discriminate.
Qed.

(** X12.  The handler of line 267 never answers: a [ValidationError] is a
    [ValueError] and the handler of line 262 comes first, so that no
    message of [parse] starts with "Event data validation failed". *)
Theorem validation_message_never_returned (text local_time local_tz : string)
  (image_path : option string) (detail : string) :
  snd (Parse text local_time local_tz image_path) <> Message ("Event data validation failed: " ++ detail).
Proof.
  unfold parse.
  destruct (Request text local_time local_tz image_path) as [e | resp].
  - unfold handle_request_error.
    destruct (is_ConnectionError e); [ | destruct (is_ValueError e)];
      simpl; intros H; injection H; discriminate.
  - destruct (Extract local_tz resp) as [e | evs]; [ | discriminate].
    unfold handle_extraction_error.
    destruct (is_ValueError e) eqn:Hv.
    + simpl; intros H; injection H; discriminate.
    + rewrite (validation_is_value_error e Hv).
      simpl; intros H; injection H; discriminate.
Qed.

Lemma parse_events_exists (text local_time local_tz : string)
  (image_path : option string) (evs : list Event) :
  snd (Parse text local_time local_tz image_path) = EventList evs ->
  exists resp items,
    Request text local_time local_tz image_path = inr resp
    /\ Candidates resp = inr items
    /\ Forall2 (fun item ev => BuildEvent local_tz item = inr ev) items evs.
Proof.
  intros Hparse.
  destruct (Request text local_time local_tz image_path) as [e | resp] eqn:Hreq.
  - unfold parse in Hparse. rewrite Hreq in Hparse.
    destruct (handle_request_error e); discriminate.
  - destruct (Candidates resp) as [e | items] eqn:Hcand.
    + unfold parse, extract in Hparse. rewrite Hreq, Hcand in Hparse.
      simpl in Hparse. destruct (handle_extraction_error e); discriminate.
    + exists resp, items. split; [reflexivity | split; [exact Hcand | ]].
      eapply parse_events_inv; eassumption.
Qed.

(** X13.  Every event that [parse] returns has a non-empty title, a start that
    the resolver produced from a non-empty value, and was accepted by the
    constructor. *)
Theorem returned_events_invariant (text local_time local_tz : string)
  (image_path : option string) (evs : list Event) :
  snd (Parse text local_time local_tz image_path) = EventList evs ->
  Forall (fun ev =>
            truthy (title ev) = true
            /\ (exists v, truthy v = true
                          /\ parse_datetime v = inr (start_time ev))
            /\ Event_validation ev = None) evs.
Proof.
  intros Hparse.
  destruct (parse_events_exists _ _ _ _ _ Hparse)
    as (resp & items & _ & _ & Hall).
  revert Hall. apply Forall2_right. intros item ev Hb.
  destruct (build_event_inv _ _ _ Hb)
    as (d & _ & Ht & Hs & Hstart & _ & _ & Hval & Hrec).
  repeat split.
  - rewrite Hrec; exact Ht.
  - exists (dict_get d "start_time"); split; assumption.
  - exact Hval.
Qed.

(** *** More fields of the events *)

(** X14.  The recurrence of a candidate is passed on without any check: the
    pattern and the days are the upstream values ([None] when absent),
    [is_recurring] is [False] when absent, and a [recurrence_end_date] that
    is absent, null or empty is [None] in the event, the resolver being
    called only for a non-empty one. *)
Theorem recurrence_passed_on (text local_time local_tz : string)
  (image_path : option string) (resp : response) (items : list value)
  (evs : list Event) (i : nat) (d : list (string * value)) :
  Request text local_time local_tz image_path = inr resp ->
  Candidates resp = inr items ->
  snd (Parse text local_time local_tz image_path) = EventList evs ->
  nth_error items i = Some (VDict d) ->
  exists ev,
    nth_error evs i = Some ev
    /\ recurrence_pattern ev = dict_get d "recurrence_pattern"
    /\ recurrence_days ev = dict_get d "recurrence_days"
    /\ (lookup "is_recurring" d = None -> is_recurring ev = VBool false)
    /\ (lacks d "recurrence_end_date" -> recurrence_end_date ev = VNone).
Proof.
  intros Hreq Hcand Hparse Hi.
  candidate_fields Hreq Hcand Hparse Hi ev Hrec.
  repeat split.
  - rewrite Hrec; reflexivity.
  - rewrite Hrec; reflexivity.
  - intros Habsent. rewrite Hrec; simpl. unfold dict_get_default.
    rewrite Habsent. reflexivity.
  - unfold lacks. intros Hlacks.
    match goal with
    | H : if truthy _ then _ else _ |- _ => rewrite Hlacks in H; exact H
    end.
Qed.

(** X15.  A candidate that names its time zone keeps it, and its title is the
    upstream title: the ambient time zone of the request is not used. *)
Theorem upstream_time_zone_kept (text local_time local_tz : string)
  (image_path : option string) (resp : response) (items : list value)
  (evs : list Event) (i : nat) (d : list (string * value)) :
  Request text local_time local_tz image_path = inr resp ->
  Candidates resp = inr items ->
  snd (Parse text local_time local_tz image_path) = EventList evs ->
  nth_error items i = Some (VDict d) ->
  truthy (dict_get d "time_zone") = true ->
  exists ev,
    nth_error evs i = Some ev
    /\ time_zone ev = dict_get d "time_zone"
    /\ title ev = dict_get d "title".
Proof.
  intros Hreq Hcand Hparse Hi Hzone.
  candidate_fields Hreq Hcand Hparse Hi ev Hrec.
  rewrite Hrec; simpl. rewrite Hzone. split; reflexivity.
Qed.

(** *** The first [try] *)

(** X16.  A [local_time] that is not in the expected format stops [parse] before
    the image is read or the model is called: the [ValueError] is answered
    with the fixed message of line 183, whatever the text of the exception,
    the request and the image are. *)
Theorem malformed_local_time_reported (text local_time local_tz : string)
  (image_path : option string) (e : exn) :
  format_time local_time = inl e ->
  is_ConnectionError e = false ->
  is_ValueError e = true ->
  Parse text local_time local_tz image_path
  = ([mk_log "Invalid input or response from Gemini: %s" [ArgExn e] false],
     Message invalid_input_message).
Proof.
  intros Hfmt Hc Hv. unfold parse, request. rewrite Hfmt. cbn [bind].
  unfold handle_request_error. rewrite Hc, Hv. reflexivity.
Qed.

(** X17.  An image that cannot be read stops [parse] before the model is called:
    the result is the one of the handlers of the first [try] for the
    exception of the read. *)
Theorem unreadable_image_stops_request (text local_time local_tz : string)
  (c : ascii) (path time_info : string) (e : exn) :
  format_time local_time = inr time_info ->
  read_image (String c path) = inl e ->
  Parse text local_time local_tz (Some (String c path))
  = ([fst (handle_request_error e)], Message (snd (handle_request_error e))).
Proof.
  intros Hfmt Hread. unfold parse, request. rewrite Hfmt. cbn [bind].
  rewrite Hread. cbn [bind].
  destruct (handle_request_error e); reflexivity.
Qed.

(** X18.  A connection error of the model call is answered with the fixed
    message of line 178, without the text of the exception; an empty image
    path counts as no image. *)
Theorem connection_error_reported (text local_time local_tz : string)
  (image_path : option string) (time_info : string) (e : exn) :
  format_time local_time = inr time_info ->
  image_path = None \/ image_path = Some EmptyString ->
  generate_content time_info local_tz text None = inl e ->
  is_ConnectionError e = true ->
  Parse text local_time local_tz image_path
  = ([mk_log "Connection error while sending request to Gemini API: %s"
        [ArgExn e] false],
     Message connection_message).
Proof.
  intros Hfmt Hpath Hcall Hc. unfold parse, request. rewrite Hfmt.
  cbn [bind]. destruct Hpath as [-> | ->]; rewrite Hcall;
    unfold handle_request_error; rewrite Hc; reflexivity.
Qed.

End Properties.

(** ** The properties at work on concrete requests *)

Abbreviation run raw tz :=
  (Sample.parse raw Sample.text Sample.local_time tz None).

Abbreviation answer raw := (mk_response (ret (Some raw))).

(** A property of [parse], taken at the collaborators of [Sample] with the
    model answering [raw]. *)
Abbreviation on_sample property raw :=
  (property Sample.format_time Sample.read_image
     (Sample.generate_content raw) Sample.json_loads Sample.parse_datetime
     Sample.Event_validation Sample.text Sample.local_time).

Ltac evaluate :=
  first [ reflexivity
        | vm_compute; reflexivity
        | vm_compute; discriminate ].

(** A fenced answer with no candidate: the fences are stripped and the
    result is the empty list of events, without any log record. *)
Example fenced_empty_batch_gives_no_event :
  sanitize Sample.fenced_empty_batch = Sample.json_text "{'events': []}"
  /\ run Sample.fenced_empty_batch Sample.local_tz = ([], EventList []).
Proof. split; vm_compute; reflexivity. Qed.

(** *** C1 *)

(** The payload [{"items": []}] decodes and has no ["events"] key. *)
Lemma payload_without_events_key_witness :
  exists e,
    getitem_events (VDict [("items", VList [])]) = inl e
    /\ is_ValueError e = false
    /\ run Sample.no_events_key Sample.local_tz
       = ([mk_log "Unexpected Error: %s %s" [ArgExn e; ArgTrace e] false],
          Message generic_message).
Proof.
  apply (on_sample payload_without_events_key Sample.no_events_key
           Sample.local_tz None (answer Sample.no_events_key)
           Sample.no_events_key (VDict [("items", VList [])])); evaluate.
Defined.

(** A payload without the ["events"] key is not told apart from any other
    unclassified failure: the [KeyError] goes to the catch-all handler,
    which logs "Unexpected Error" and returns its fixed message, the very
    message that a candidate which is not a record (an [AttributeError])
    gets.  No handler of [parse] reports a malformed payload as such. *)
Lemma payload_without_events_key_counterexample :
  run Sample.no_events_key Sample.local_tz
  = ([mk_log "Unexpected Error: %s %s"
        [ArgExn (mk_exn KeyError "'events'");
         ArgTrace (mk_exn KeyError "'events'")] false],
     Message "An unexpected error occurred. Please check the logs.")
  /\ snd (run Sample.no_events_key Sample.local_tz)
     = snd (run Sample.not_a_record Sample.local_tz).
Proof. split; vm_compute; reflexivity. Qed.

(** *** C2 *)

(** Of three candidates the second has no title: the first one is built,
    and the batch is aborted with the message of the missing field. *)
Lemma missing_required_field_aborts_batch_witness :
  run Sample.batch_with_untitled Sample.local_tz
  = ([mk_log "ValueError: %s" [ArgExn missing_required_error] true],
     Message
       "Invalid event data: Missing required fields: 'title' and/or 'start_time'").
Proof.
  destruct (on_sample missing_required_field_aborts_batch
              Sample.batch_with_untitled Sample.local_tz None (answer Sample.batch_with_untitled)
              [VDict [("title", VStr "Kickoff");
                      ("start_time", VStr "20250315T090000")]]
              [VDict [("title", VStr "Review");
                      ("start_time", VStr "20250317T090000")]]
              [("start_time", VStr "20250316T090000")])
    as [_ Hmessage].
  - evaluate.
  - evaluate.
  - left; evaluate.
  - eapply Hmessage. evaluate.
Defined.

(** *** C3 *)

(** The trip carries [is_all_day: false], and so does its event. *)
Lemma all_day_flag_is_upstream_witness :
  exists ev,
    nth_error (events_of (run Sample.trip Sample.local_tz)) 0 = Some ev
    /\ is_all_day ev = VBool false.
Proof.
  eapply (on_sample all_day_flag_is_upstream Sample.trip
            Sample.local_tz None (answer Sample.trip) _ _ 0%nat
            Sample.trip_record);
    evaluate.
Defined.

(** The start of the trip is a date without a time, the upstream flag is
    [false], and the event is not an all-day event. *)
Lemma date_only_start_keeps_false_flag_counterexample :
  exists ev,
    snd (run Sample.trip Sample.local_tz) = EventList [ev]
    /\ start_time ev = VDatetime (mk_datetime 2025 3 15 0 0 0)
    /\ is_all_day ev = VBool false
    /\ is_all_day ev <> VBool true.
Proof.
  eexists; split; [vm_compute; reflexivity | ].
  repeat split; simpl; discriminate.
Qed.

(** *** C4 *)

(** The call has no [end_time]. *)
Lemma absent_end_time_is_resolver_of_none_witness :
  exists ev,
    nth_error (events_of (run Sample.call Sample.local_tz)) 0 = Some ev
    /\ Sample.parse_datetime VNone = inr (end_time ev).
Proof.
  eapply (on_sample absent_end_time_is_resolver_of_none Sample.call
            Sample.local_tz None (answer Sample.call) _ _ 0%nat
            Sample.call_record);
    evaluate.
Defined.

(** The call starts at 10:00 and has no [end_time]: the event ends at
    [None], not at 11:00. *)
Lemma absent_end_time_counterexample :
  exists ev,
    snd (run Sample.call Sample.local_tz) = EventList [ev]
    /\ start_time ev = VDatetime (mk_datetime 2025 3 15 10 0 0)
    /\ end_time ev = VNone
    /\ end_time ev <> VDatetime (mk_datetime 2025 3 15 11 0 0).
Proof.
  eexists; split; [vm_compute; reflexivity | ].
  repeat split; simpl; discriminate.
Qed.

(** *** C5 *)

(** The party ends at midnight. *)
Lemma end_time_is_resolver_result_witness :
  exists ev,
    nth_error (events_of (run Sample.party Sample.local_tz)) 0 = Some ev
    /\ Sample.parse_datetime (dict_get Sample.party_record "end_time")
       = inr (end_time ev).
Proof.
  eapply (on_sample end_time_is_resolver_result Sample.party
            Sample.local_tz None (answer Sample.party) _ _ 0%nat
            Sample.party_record);
    evaluate.
Defined.

(** The party ends at midnight: the event ends at 00:00 of the next day,
    not at 23:59:00; and with the end written as 24:00, which the resolver
    rejects, there is no event at all. *)
Lemma midnight_end_counterexample :
  (exists ev,
      snd (run Sample.party Sample.local_tz) = EventList [ev]
      /\ end_time ev = VDatetime (mk_datetime 2025 3 16 0 0 0)
      /\ end_time ev <> VDatetime (mk_datetime 2025 3 15 23 59 0))
  /\ snd (run Sample.party_24 Sample.local_tz)
     = Message "Invalid event data: Unable to parse datetime: 20250315T240000".
Proof.
  split.
  - eexists; split; [vm_compute; reflexivity | ].
    split; simpl; [reflexivity | discriminate].
  - vm_compute; reflexivity.
Qed.

(** *** C6 *)

(** The call has no [time_zone]; the request is made from Los Angeles. *)
Lemma time_zone_defaults_to_ambient_witness :
  (forall i d,
      nth_error [VDict Sample.call_record] i = Some (VDict d) ->
      lacks d "time_zone" ->
      exists ev,
        nth_error (events_of (run Sample.call Sample.local_tz)) i = Some ev
        /\ time_zone ev = VStr Sample.local_tz)
  /\ (Sample.local_tz <> EmptyString ->
      Forall (fun ev => truthy (time_zone ev) = true)
        (events_of (run Sample.call Sample.local_tz))).
Proof.
  apply (on_sample time_zone_defaults_to_ambient Sample.call
           Sample.local_tz None (answer Sample.call)); evaluate.
Defined.

(** With an empty ambient time zone, the event of a candidate without
    [time_zone] carries the empty string. *)
Lemma empty_ambient_time_zone_counterexample :
  exists ev,
    snd (run Sample.call EmptyString) = EventList [ev]
    /\ time_zone ev = VStr EmptyString
    /\ truthy (time_zone ev) = false.
Proof.
  eexists; split; [vm_compute; reflexivity | ].
  split; reflexivity.
Qed.

(** *** C7 *)

(** The stand-up has both a count and an end date. *)
Lemma recurrence_count_and_end_date_kept_witness :
  exists ev,
    nth_error (events_of (run Sample.standup Sample.local_tz)) 0 = Some ev
    /\ recurrence_count ev = VInt 5
    /\ Sample.parse_datetime
         (dict_get Sample.standup_record "recurrence_end_date")
       = inr (recurrence_end_date ev).
Proof.
  eapply (on_sample recurrence_count_and_end_date_kept Sample.standup
            Sample.local_tz None (answer Sample.standup) _ _ 0%nat
            Sample.standup_record);
    evaluate.
Defined.

(** The stand-up has a count of 5 and an end date: the event keeps the
    count. *)
Lemma recurrence_count_kept_counterexample :
  exists ev,
    snd (run Sample.standup Sample.local_tz) = EventList [ev]
    /\ recurrence_end_date ev = VDatetime (mk_datetime 2025 6 30 0 0 0)
    /\ recurrence_count ev = VInt 5
    /\ recurrence_count ev <> VNone.
Proof.
  eexists; split; [vm_compute; reflexivity | ].
  repeat split; simpl; discriminate.
Qed.

(** *** C8 *)

(** The lunch has neither [description] nor [attendees], and a null
    [location]. *)
Lemma placeholder_defaults_witness :
  exists ev,
    nth_error (events_of (run Sample.lunch Sample.local_tz)) 0 = Some ev
    /\ (lookup "description" Sample.lunch_record = None ->
        description ev = VStr " ")
    /\ (lookup "location" Sample.lunch_record = None ->
        location ev = VStr " ")
    /\ (lookup "attendees" Sample.lunch_record = None ->
        attendees ev = VList [])
    /\ (forall v,
          lookup "description" Sample.lunch_record = Some v ->
          description ev = v)
    /\ (forall v,
          lookup "location" Sample.lunch_record = Some v ->
          location ev = v).
Proof.
  eapply (on_sample placeholder_defaults Sample.lunch
            Sample.local_tz None (answer Sample.lunch) _ _ 0%nat
            Sample.lunch_record);
    evaluate.
Defined.

(** The lunch has no [description] and a null [location]: the event's
    description is one space, not the empty string, and its location is
    [None]. *)
Lemma placeholder_defaults_counterexample :
  exists ev,
    snd (run Sample.lunch Sample.local_tz) = EventList [ev]
    /\ description ev = VStr " "
    /\ description ev <> VStr EmptyString
    /\ location ev = VNone.
Proof.
  eexists; split; [vm_compute; reflexivity | ].
  repeat split; simpl; discriminate.
Qed.

(** *** C9 *)

(** C9.  The image of the request cannot be read: the catch-all of the
    first [try] returns a message that carries the text of the exception,
    here the path of the file, where the catch-all of the second [try]
    returns a fixed message. *)
Theorem request_catch_all_leaks_exception_text :
  Sample.parse Sample.lunch Sample.text Sample.local_time Sample.local_tz
    (Some "/tmp/flyer.jpg")
  = ([mk_log "Unexpected error: %s"
        [ArgExn
           (mk_exn FileNotFoundError
              "[Errno 2] No such file or directory: '/tmp/flyer.jpg'")]
        false],
     Message
       "An unexpected error occurred: [Errno 2] No such file or directory: '/tmp/flyer.jpg'").
Proof. vm_compute; reflexivity. Qed.

(** *** C10 *)

(** The call has no [is_all_day]. *)
Lemma absent_all_day_flag_is_false_witness :
  (exists ev,
      nth_error (events_of (run Sample.call Sample.local_tz)) 0 = Some ev
      /\ is_all_day ev = VBool false)
  /\ build_event Sample.parse_datetime Sample.Event_validation
       Sample.local_tz (VDict Sample.call_record)
     = build_event Sample.parse_datetime Sample.Event_validation
         Sample.local_tz
         (VDict (("is_all_day", VBool false) :: Sample.call_record)).
Proof.
  eapply (on_sample absent_all_day_flag_is_false Sample.call
            Sample.local_tz None (answer Sample.call) _ _ 0%nat
            Sample.call_record);
    evaluate.
Defined.

(** ** Further properties on concrete requests *)

(** A fenced empty batch, with a line feed after the opening fence and
    before the closing one. *)
Lemma sanitize_fenced_witness :
  sanitize
    (fence_open ++ String (ascii_of_nat 10) EmptyString
     ++ Sample.json_text "{'events': []}"
     ++ String (ascii_of_nat 10) EmptyString ++ fence_close)
  = Sample.json_text "{'events': []}".
Proof.
  apply (sanitize_fenced (String (ascii_of_nat 10) EmptyString)
           (String (ascii_of_nat 10) EmptyString)
           (Sample.json_text "{'events': []}")); evaluate.
Defined.

(** The model answers with fences around nothing. *)
Lemma empty_answer_reported_witness :
  run Sample.fence_around_nothing Sample.local_tz
  = ([mk_log "ValueError: %s" [ArgExn (mk_exn ValueError no_event_data)] true],
     Message "Invalid event data: No event data extracted from the text").
Proof.
  apply (on_sample empty_answer_reported Sample.fence_around_nothing
           Sample.local_tz None (answer Sample.fence_around_nothing)).
  - evaluate.
  - right. exists Sample.fence_around_nothing. split; evaluate.
Defined.

(** The model answers with a document that is not JSON. *)
Lemma undecodable_payload_witness :
  run Sample.broken Sample.local_tz
  = ([mk_log "Unexpected Error: %s %s"
        [ArgExn unbound_event_data; ArgTrace unbound_event_data] false],
     Message generic_message).
Proof.
  apply (on_sample undecodable_payload Sample.broken
           Sample.local_tz None (answer Sample.broken) Sample.broken
           (mk_exn JSONDecodeError "Expecting value")); evaluate.
Defined.

(** The call is built, so the result is its event. *)
Lemma parse_succeeds_iff_witness :
  run Sample.call Sample.local_tz
  = ([], EventList (events_of (run Sample.call Sample.local_tz)))
  <-> Forall2
        (fun item ev =>
           build_event Sample.parse_datetime Sample.Event_validation
             Sample.local_tz item = inr ev)
        [VDict Sample.call_record]
        (events_of (run Sample.call Sample.local_tz)).
Proof.
  apply (on_sample parse_succeeds_iff Sample.call
           Sample.local_tz None (answer Sample.call)); evaluate.
Defined.

(** The kick-off is built, the review starts "tomorrow", which the
    resolver rejects. *)
Lemma first_failure_decides_witness :
  run Sample.batch_with_vague_date Sample.local_tz
  = ([mk_log "ValueError: %s"
        [ArgExn (mk_exn ValueError "Unable to parse datetime: tomorrow")]
        true],
     Message "Invalid event data: Unable to parse datetime: tomorrow").
Proof.
  eapply (on_sample first_failure_decides Sample.batch_with_vague_date
            Sample.local_tz None (answer Sample.batch_with_vague_date)
            [VDict Sample.kickoff_record] [] _
            (VDict [("title", VStr "Review");
                    ("start_time", VStr "tomorrow")])
            (mk_exn ValueError "Unable to parse datetime: tomorrow"));
    evaluate.
Defined.

(** The second candidate is the number 7. *)
Lemma candidate_not_an_object_witness :
  let e := mk_exn AttributeError "'int' object has no attribute 'get'" in
  run Sample.batch_with_number Sample.local_tz
  = ([mk_log "Unexpected Error: %s %s" [ArgExn e; ArgTrace e] false],
     Message generic_message).
Proof.
  eapply (on_sample candidate_not_an_object Sample.batch_with_number
            Sample.local_tz None (answer Sample.batch_with_number)
            [VDict Sample.kickoff_record]
            [VDict [("title", VStr "Review")]] _ (VInt 7));
    evaluate.
Defined.

(** ["events"] is [null]. *)
Lemma events_not_iterable_witness :
  let e := mk_exn TypeError "'NoneType' object is not iterable" in
  run Sample.events_null Sample.local_tz
  = ([mk_log "Unexpected Error: %s %s" [ArgExn e; ArgTrace e] false],
     Message generic_message).
Proof.
  eapply (on_sample events_not_iterable Sample.events_null
            Sample.local_tz None (answer Sample.events_null)
            Sample.events_null [("events", VNone)] VNone);
    evaluate.
Defined.

(** ["events"] is the string "soon". *)
Lemma events_object_or_string_witness :
  let e := mk_exn AttributeError "'str' object has no attribute 'get'" in
  run Sample.events_text Sample.local_tz
  = ([mk_log "Unexpected Error: %s %s" [ArgExn e; ArgTrace e] false],
     Message generic_message).
Proof.
  eapply (on_sample events_object_or_string Sample.events_text
            Sample.local_tz None (answer Sample.events_text)
            Sample.events_text [("events", VStr "soon")] (VStr "soon"));
    try evaluate.
  left. eexists; eexists; reflexivity.
Defined.

(** ["events"] is the empty object. *)
Lemma events_empty_witness :
  run Sample.events_empty_object Sample.local_tz = ([], EventList []).
Proof.
  eapply (on_sample events_empty Sample.events_empty_object
            Sample.local_tz None (answer Sample.events_empty_object)
            Sample.events_empty_object [("events", VDict [])] (VDict []));
    try evaluate.
  right; left; reflexivity.
Defined.

(** ["events"] is [null]: the [TypeError] is no [ValueError]. *)
Lemma extraction_catch_all_witness :
  let e := mk_exn TypeError "'NoneType' object is not iterable" in
  run Sample.events_null Sample.local_tz
  = ([mk_log "Unexpected Error: %s %s" [ArgExn e; ArgTrace e] false],
     Message generic_message).
Proof.
  apply (on_sample extraction_catch_all Sample.events_null
           Sample.local_tz None (answer Sample.events_null)); evaluate.
Defined.

(** The event of the sync. *)
Lemma returned_events_invariant_witness :
  Forall (fun ev =>
            truthy (title ev) = true
            /\ (exists v, truthy v = true
                          /\ Sample.parse_datetime v = inr (start_time ev))
            /\ Sample.Event_validation ev = None)
    (events_of (run Sample.sync Sample.local_tz)).
Proof.
  apply (on_sample returned_events_invariant Sample.sync
           Sample.local_tz None); evaluate.
Defined.

(** The sync has a pattern that is no known one, and an empty end date. *)
Lemma recurrence_passed_on_witness :
  exists ev,
    nth_error (events_of (run Sample.sync Sample.local_tz)) 0 = Some ev
    /\ recurrence_pattern ev = VStr "FORTNIGHTLY"
    /\ recurrence_days ev = VNone
    /\ (lookup "is_recurring" Sample.sync_record = None ->
        is_recurring ev = VBool false)
    /\ (lacks Sample.sync_record "recurrence_end_date" ->
        recurrence_end_date ev = VNone).
Proof.
  eapply (on_sample recurrence_passed_on Sample.sync
            Sample.local_tz None (answer Sample.sync) _ _ 0%nat
            Sample.sync_record);
    evaluate.
Defined.

(** The sync is in Paris, the request comes from Los Angeles. *)
Lemma upstream_time_zone_kept_witness :
  exists ev,
    nth_error (events_of (run Sample.sync Sample.local_tz)) 0 = Some ev
    /\ time_zone ev = VStr "Europe/Paris"
    /\ title ev = VStr "Sync".
Proof.
  eapply (on_sample upstream_time_zone_kept Sample.sync
            Sample.local_tz None (answer Sample.sync) _ _ 0%nat
            Sample.sync_record);
    evaluate.
Defined.

(** The caller passes "noon" as the local time. *)
Lemma malformed_local_time_reported_witness :
  parse Sample.format_time_rejecting Sample.read_image
    (Sample.generate_content Sample.call) Sample.json_loads
    Sample.parse_datetime Sample.Event_validation
    Sample.text "noon" Sample.local_tz (Some "/tmp/flyer.jpg")
  = ([mk_log "Invalid input or response from Gemini: %s"
        [ArgExn
           (mk_exn ValueError
              "time data 'noon' does not match format '%Y-%m-%dT%H:%M:%SZ'")]
        false],
     Message
       "An error occurred due to an invalid input or response from Gemini API.").
Proof.
  apply (malformed_local_time_reported Sample.format_time_rejecting
           Sample.read_image (Sample.generate_content Sample.call)
           Sample.json_loads Sample.parse_datetime Sample.Event_validation);
    evaluate.
Defined.

(** The image of the request does not exist. *)
Lemma unreadable_image_stops_request_witness :
  let e := mk_exn FileNotFoundError
             "[Errno 2] No such file or directory: '/tmp/flyer.jpg'" in
  Sample.parse Sample.call Sample.text Sample.local_time Sample.local_tz
    (Some "/tmp/flyer.jpg")
  = ([fst (handle_request_error e)], Message (snd (handle_request_error e))).
Proof.
  intros e.
  eapply (on_sample unreadable_image_stops_request Sample.call
            Sample.local_tz "/"%char "tmp/flyer.jpg" _ e); evaluate.
Defined.

(** The model cannot be reached; the image path is empty. *)
Lemma connection_error_reported_witness :
  parse Sample.format_time Sample.read_image Sample.generate_content_offline
    Sample.json_loads Sample.parse_datetime Sample.Event_validation
    Sample.text Sample.local_time Sample.local_tz (Some EmptyString)
  = ([mk_log "Connection error while sending request to Gemini API: %s"
        [ArgExn (mk_exn ConnectionError "Connection refused")] false],
     Message connection_message).
Proof.
  eapply (connection_error_reported Sample.format_time Sample.read_image
            Sample.generate_content_offline Sample.json_loads
            Sample.parse_datetime Sample.Event_validation);
    try evaluate.
  right; reflexivity.
Defined.

End GeminiParser.
